(** * OAuth example services: a shallow embedding of the tool handlers

    The repository holds two independent services,
    [google/src/index.ts] (tool [send-gmail]) and
    [gist-creator/src/index.ts] (tools [get-github-profile] and
    [create-github-gist]).  Every handler follows the same pattern: look the
    caller up in the in-memory [tokenStore]; without a credential, ask the
    OAuth2 delegate for an authorization URL and answer with an [oauth2] card;
    with a credential, issue one [fetch] and shape the reply into a [card].

    Conventions of the embedding.
    - A JavaScript string that is well-formed Unicode is represented by its
      UTF-8 byte sequence, as a [string] of the standard library.  On such
      strings [Buffer.from(s)] is the identity on bytes.
    - A JavaScript value is a [JSValue].  The numbers of the model are the
      integers; their decimal text is the text JavaScript prints for a safe
      integer (magnitude below 2^53).  Other numbers have no representation,
      and no property below states the text of a number outside this range.
    - A string with a lone surrogate, which [Buffer.from] would encode as
      U+FFFD, has no representation either.
    - [await]ed calls to collaborators outside the repository are answered by
      the caller of a handler: [fetch] and [Response.json] by a
      [Fetch.Network], [app.oauth2.generateAuthUrl] by the [App] the handler
      is given.  Every such call is recorded in the trace of the [World].
    - One invocation is run sequentially: a completion callback arriving while
      a handler is suspended is a separate step of the service. *)

From Stdlib Require Import String Ascii List Bool ZArith NArith Lia DecimalString.
Import ListNotations.
Local Open Scope list_scope.
Local Open Scope string_scope.

(** ** Characters that cannot be written inside a string literal *)

Definition dquote : string := String "034"%char EmptyString.
Definition LF : string := String "010"%char EmptyString.

(** ** JavaScript values *)

#[local] Set Warnings "-register-all".

Inductive JSValue : Type :=
| JUndefined : JSValue
| JNull : JSValue
| JBool : bool -> JSValue
| JNum : Z -> JSValue
| JStr : string -> JSValue
| JArr : list JSValue -> JSValue
| JObj : list (string * JSValue) -> JSValue.

(** The errors a rejected promise or a [throw] carries. *)
Inductive JSError : Type :=
| TypeError : string -> JSError
| SyntaxError : string -> JSError
| OtherError : string -> JSError.

(** A settled promise, or the completion of an expression that may throw. *)
Inductive Outcome (A : Type) : Type :=
| Fulfilled : A -> Outcome A
| Rejected : JSError -> Outcome A.
Arguments Fulfilled {A} _.
Arguments Rejected {A} _.

Module JS.

(** Own properties of an object, first binding of a key. *)
Fixpoint lookup (k : string) (props : list (string * JSValue)) : option JSValue :=
  match props with
  | [] => None
  | (k', v) :: rest => if String.eqb k k' then Some v else lookup k rest
  end.

(** [v.k] for a property name [k] that no prototype defines (all the names
    the handlers read: [id], [login], [name], [email], [bio],
    [public_repos], [html_url]).  Reading a property of [null] or
    [undefined] throws a TypeError; a primitive or an array has no such
    property. *)
Definition get (v : JSValue) (k : string) : Outcome JSValue :=
  match v with
  | JUndefined => Rejected (TypeError "Cannot read properties of undefined")
  | JNull => Rejected (TypeError "Cannot read properties of null")
  | JObj props =>
      match lookup k props with
      | Some x => Fulfilled x
      | None => Fulfilled JUndefined
      end
  | _ => Fulfilled JUndefined
  end.

(** Number::toString of a safe integer: its decimal digits. *)
Definition Number_toString (z : Z) : string :=
  NilZero.string_of_int (Z.to_int z).

Fixpoint join (sep : string) (l : list string) : string :=
  match l with
  | [] => ""
  | [x] => x
  | x :: rest => x ++ sep ++ join sep rest
  end.

(** The text of [String(v)] when the conversion does not throw. *)
Fixpoint text (v : JSValue) : string :=
  match v with
  | JUndefined => "undefined"
  | JNull => "null"
  | JBool true => "true"
  | JBool false => "false"
  | JNum z => Number_toString z
  | JStr s => s
  | JArr l =>
      join ","
        (map (fun x => match x with
                       | JUndefined | JNull => ""
                       | _ => text x
                       end) l)
  | JObj _ => "[object Object]"
  end.

(** Whether [String(v)] throws, for a value parsed from JSON.  An object
    with an own property [toString] hides [Object.prototype.toString] behind
    a value that cannot be called, and neither it nor [valueOf] yields a
    primitive; an array converts its elements, except [null] and
    [undefined], in turn. *)
Fixpoint throws (v : JSValue) : bool :=
  match v with
  | JObj props =>
      match lookup "toString" props with
      | Some _ => true
      | None => false
      end
  | JArr l =>
      existsb (fun x => match x with
                        | JUndefined | JNull => false
                        | _ => throws x
                        end) l
  | _ => false
  end.

(** [String(v)], the conversion a template literal applies to [${v}]. *)
Definition ToString (v : JSValue) : Outcome string :=
  if throws v
  then Rejected (TypeError "Cannot convert object to primitive value")
  else Fulfilled (text v).

(** The values whose text the model prints as JavaScript does: the
    primitives, a number being a safe integer. *)
Definition plain (v : JSValue) : bool :=
  match v with
  | JUndefined | JNull | JBool _ | JStr _ => true
  | JNum z => (Z.abs z <? 2 ^ 53)%Z
  | JArr _ | JObj _ => false
  end.

(** *** [JSON.stringify] *)

Definition hex_digit (n : N) : ascii :=
  match n with
  | 0 => "0" | 1 => "1" | 2 => "2" | 3 => "3" | 4 => "4" | 5 => "5"
  | 6 => "6" | 7 => "7" | 8 => "8" | 9 => "9" | 10 => "a" | 11 => "b"
  | 12 => "c" | 13 => "d" | 14 => "e" | _ => "f"
  end%N%char.

(** One code unit of QuoteJSONString.  Bytes from 0x80 on belong to a
    multi-byte character and are copied. *)
Definition quote_char (c : ascii) : string :=
  let n := N_of_ascii c in
  if N.eqb n 8 then "\b"
  else if N.eqb n 9 then "\t"
  else if N.eqb n 10 then "\n"
  else if N.eqb n 12 then "\f"
  else if N.eqb n 13 then "\r"
  else if N.eqb n 34 then "\" ++ dquote
  else if N.eqb n 92 then "\\"
  else if N.ltb n 32 then
    "\u00" ++ String (hex_digit (N.div n 16)) (String (hex_digit (N.modulo n 16)) "")
  else String c "".

Fixpoint quote_body (s : string) : string :=
  match s with
  | EmptyString => ""
  | String c rest => quote_char c ++ quote_body rest
  end.

Definition quote (s : string) : string := dquote ++ quote_body s ++ dquote.

(** SerializeJSONProperty: [None] stands for [undefined].  A property whose
    value serializes to [undefined] is left out of an object and written
    [null] in an array.  The property list is the object's own enumerable
    properties in enumeration order. *)
Fixpoint serialize (v : JSValue) : option string :=
  match v with
  | JUndefined => None
  | JNull => Some "null"
  | JBool true => Some "true"
  | JBool false => Some "false"
  | JNum z => Some (Number_toString z)
  | JStr s => Some (quote s)
  | JArr l =>
      Some ("[" ++ join ","
              (map (fun x => match serialize x with
                             | Some s => s
                             | None => "null"
                             end) l) ++ "]")
  | JObj props =>
      Some ("{" ++ join ","
              ((fix members (ps : list (string * JSValue)) : list string :=
                  match ps with
                  | [] => []
                  | (k, x) :: rest =>
                      match serialize x with
                      | Some s => (quote k ++ ":" ++ s) :: members rest
                      | None => members rest
                      end
                  end) props) ++ "}")
  end.

Definition JSON_stringify (v : JSValue) : option string := serialize v.

End JS.

(** ** [Buffer.from(s).toString('base64')] and the regular-expression edits *)

Module Base64.

Definition alphabet : string :=
  "ABCDEFGHIJKLMNOPQRSTUVWXYZabcdefghijklmnopqrstuvwxyz0123456789+/".

(** The character of a 6-bit value in the standard alphabet. *)
Definition digit (n : N) : ascii :=
  match String.get (N.to_nat n) alphabet with
  | Some c => c
  | None => "="%char
  end.

(** RFC 4648 base64 of a byte sequence, with [=] padding. *)
Fixpoint encode_bytes (bs : list N) : string :=
  match bs with
  | [] => ""
  | [a] =>
      String (digit (N.shiftr a 2))
        (String (digit (N.shiftl (N.land a 3) 4)) "==")
  | [a; b] =>
      String (digit (N.shiftr a 2))
        (String (digit (N.lor (N.shiftl (N.land a 3) 4) (N.shiftr b 4)))
           (String (digit (N.shiftl (N.land b 15) 2)) "="))
  | a :: b :: c :: rest =>
      String (digit (N.shiftr a 2))
        (String (digit (N.lor (N.shiftl (N.land a 3) 4) (N.shiftr b 4)))
           (String (digit (N.lor (N.shiftl (N.land b 15) 2) (N.shiftr c 6)))
              (String (digit (N.land c 63)) (encode_bytes rest))))
  end.

(** [Buffer.from(s)]: the UTF-8 bytes of [s], which are the bytes that
    represent [s] here. *)
Definition Buffer_from (s : string) : list N :=
  map N_of_ascii (list_ascii_of_string s).

(** [Buffer.from(s).toString('base64')] *)
Definition toString_base64 (s : string) : string :=
  encode_bytes (Buffer_from s).

(** [s.replace(/c/g, d)] for a one-character pattern [c]. *)
Fixpoint replace_all (c d : ascii) (s : string) : string :=
  match s with
  | EmptyString => ""
  | String x rest =>
      String (if Ascii.eqb x c then d else x) (replace_all c d rest)
  end.

Fixpoint all_eq (s : string) : bool :=
  match s with
  | EmptyString => true
  | String x rest => Ascii.eqb x "=" && all_eq rest
  end.

(** [s.replace(/=+$/, '')]: the leftmost position from which only [=]
    follows up to the end of the string starts the match, which is
    removed. *)
Fixpoint strip_padding (s : string) : string :=
  match s with
  | EmptyString => ""
  | String x rest =>
      if all_eq (String x rest) then "" else String x (strip_padding rest)
  end.

(** The whole expression of line 53 of [google/src/index.ts]. *)
Definition encodeEmail (email : string) : string :=
  strip_padding
    (replace_all "/" "_" (replace_all "+" "-" (toString_base64 email))).

(** *** Decoding, as a reader of the [raw] field does it (RFC 4648 §5) *)

Definition url_alphabet : string :=
  "ABCDEFGHIJKLMNOPQRSTUVWXYZabcdefghijklmnopqrstuvwxyz0123456789-_".

Fixpoint index_of (c : ascii) (s : string) : option N :=
  match s with
  | EmptyString => None
  | String x rest =>
      if Ascii.eqb x c then Some 0%N
      else option_map N.succ (index_of c rest)
  end.

Definition url_value (c : ascii) : option N := index_of c url_alphabet.

Fixpoint values (s : string) : option (list N) :=
  match s with
  | EmptyString => Some []
  | String c rest =>
      match url_value c, values rest with
      | Some v, Some vs => Some (v :: vs)
      | _, _ => None
      end
  end.

Fixpoint decode_values (vs : list N) : option (list N) :=
  match vs with
  | [] => Some []
  | [_] => None
  | [p; q] => Some [N.lor (N.shiftl p 2) (N.shiftr q 4)]
  | [p; q; r] =>
      Some [N.lor (N.shiftl p 2) (N.shiftr q 4);
            N.lor (N.shiftl (N.land q 15) 4) (N.shiftr r 2)]
  | p :: q :: r :: t :: rest =>
      option_map
        (fun bs =>
           N.lor (N.shiftl p 2) (N.shiftr q 4)
           :: N.lor (N.shiftl (N.land q 15) 4) (N.shiftr r 2)
           :: N.lor (N.shiftl (N.land r 3) 6) t
           :: bs)
        (decode_values rest)
  end.

(** Unpadded base64url text back to bytes. *)
Definition base64url_decode (s : string) : option (list N) :=
  match values s with
  | Some vs => decode_values vs
  | None => None
  end.

Fixpoint occurs (c : ascii) (s : string) : bool :=
  match s with
  | EmptyString => false
  | String x rest => Ascii.eqb x c || occurs c rest
  end.

Fixpoint last_char (s : string) : option ascii :=
  match s with
  | EmptyString => None
  | String x EmptyString => Some x
  | String _ rest => last_char rest
  end.

End Base64.

(** ** The in-memory token store: a JavaScript [Map] *)

(** Modelled from the spec: the type [OAuth2Tokens] is declared by the SDK,
    not by this repository.  The handlers read only [accessToken]; the spec
    describes a credential as "access token, optionally refresh token/expiry". *)
Record OAuth2Tokens : Type := {
  accessToken : string;
  refreshToken : option string;
  expiresAt : option Z
}.

(** A [Map] keeps its entries in a list ([[MapData]] in ECMAScript):
    [get] returns the value of the first entry with the key, [set] overwrites
    the value of that entry in place and appends a new entry otherwise. *)
Module JSMap.

Definition t (V : Type) : Type := list (string * V).

Definition empty {V : Type} : t V := [].

Fixpoint get {V : Type} (m : t V) (k : string) : option V :=
  match m with
  | [] => None
  | (k', v) :: rest => if String.eqb k' k then Some v else get rest k
  end.

Fixpoint set {V : Type} (m : t V) (k : string) (v : V) : t V :=
  match m with
  | [] => [(k, v)]
  | (k', v') :: rest =>
      if String.eqb k' k then (k', v) :: rest else (k', v') :: set rest k v
  end.

(** The number of entries stored under a key. *)
Definition count {V : Type} (m : t V) (k : string) : nat :=
  length (filter (fun e => String.eqb (fst e) k) m).

End JSMap.

(** ** Collaborators and effects *)

Module Fetch.

Record RequestInit : Type := {
  method : option string;
  headers : list (string * string);
  body : option string
}.

(** What the handlers use of a [Response]: the settlement of
    [response.json()].  The status is carried along; no handler reads it. *)
Record Response : Type := {
  status : Z;
  json : Outcome JSValue
}.

(** The network: the settlement of [fetch(url, init)].  [fetch] rejects on a
    network failure only; a reply with any status fulfils it. *)
Definition Network : Type := string -> RequestInit -> Outcome Response.

(** The value of a header of a request. *)
Fixpoint header (hs : list (string * string)) (name : string) : option string :=
  match hs with
  | [] => None
  | (n, v) :: rest => if String.eqb n name then Some v else header rest name
  end.

(** [response.ok]: a status from 200 to 299. *)
Definition ok (r : Response) : bool :=
  (200 <=? status r)%Z && (status r <=? 299)%Z.

End Fetch.

(** [app.oauth2], the OAuth2 delegate of the SDK: of its interface the
    handlers use [generateAuthUrl(provider, agentId)], a promise of the
    authorization URL. *)
Record OAuth2Handler : Type := {
  generateAuthUrl : string -> string -> Outcome string
}.

(** The [app] of a handler's third argument; [oauth2] is optional. *)
Record App : Type := {
  oauth2 : option OAuth2Handler
}.

(** The caller, as the host describes it; the handlers read its [id]. *)
Record AgentInfo : Type := {
  id : string
}.

(** The arguments of a [console.log]. *)

Inductive LogArg : Type :=
| LogString : string -> LogArg
| LogTokens : OAuth2Tokens -> LogArg.

(** The calls a handler or a callback makes to the outside. *)
Inductive Event : Type :=
| CallGenerateAuthUrl : string -> string -> Event
| CallFetch : string -> Fetch.RequestInit -> Event
| ConsoleLog : list LogArg -> Event.

(** The state of one service process: its module-level [tokenStore] and the
    calls made so far, oldest first. *)
Record World : Type := {
  tokenStore : JSMap.t OAuth2Tokens;
  trace : list Event
}.

(** An [async] function body: it runs against the network from a world and
    settles, leaving a world. *)
Definition Async (A : Type) : Type :=
  Fetch.Network -> World -> Outcome A * World.

Module AsyncM.

Definition ret {A : Type} (a : A) : Async A :=
  fun _ w => (Fulfilled a, w).

Definition bind {A B : Type} (m : Async A) (f : A -> Async B) : Async B :=
  fun net w =>
    match m net w with
    | (Fulfilled a, w') => f a net w'
    | (Rejected e, w') => (Rejected e, w')
    end.

(** An expression that may throw, or [await] of a settled promise. *)
Definition settle {A : Type} (o : Outcome A) : Async A :=
  fun _ w => (o, w).

Definition emit (e : Event) : Async unit :=
  fun _ w =>
    (Fulfilled tt, {| tokenStore := tokenStore w; trace := trace w ++ [e] |}%list).

(** [tokenStore.get(k)] *)
Definition tokenStore_get (k : string) : Async (option OAuth2Tokens) :=
  fun _ w => (Fulfilled (JSMap.get (tokenStore w) k), w).

(** [tokenStore.set(k, v)] *)
Definition tokenStore_set (k : string) (v : OAuth2Tokens) : Async unit :=
  fun _ w =>
    (Fulfilled tt,
     {| tokenStore := JSMap.set (tokenStore w) k v; trace := trace w |}).

(** [await fetch(url, init)] *)
Definition fetch (url : string) (init : Fetch.RequestInit) : Async Fetch.Response :=
  fun net w =>
    (net url init,
     {| tokenStore := tokenStore w; trace := trace w ++ [CallFetch url init] |}%list).

(** [await app.oauth2?.generateAuthUrl(provider, agentId)]: [undefined]
    when [app.oauth2] is missing, without a call. *)
Definition oauth2_generateAuthUrl (app : App) (provider agentId : string)
  : Async JSValue :=
  match oauth2 app with
  | None => ret JUndefined
  | Some h =>
      bind (emit (CallGenerateAuthUrl provider agentId)) (fun _ =>
      bind (settle (generateAuthUrl h provider agentId)) (fun url =>
      ret (JStr url)))
  end.

Definition console_log (args : list LogArg) : Async unit :=
  emit (ConsoleLog args).

End AsyncM.

Declare Scope async_scope.
Delimit Scope async_scope with async.
Notation "x <- m ;; k" := (AsyncM.bind m (fun x => k))
  (at level 61, m at next level, right associativity) : async_scope.
Notation "m ;;; k" := (AsyncM.bind m (fun _ => k))
  (at level 61, right associativity) : async_scope.

(** ** Tool results *)

Record UI : Type := {
  type : string;
  uiData : option string
}.

Record ToolResult : Type := {
  text : string;
  data : JSValue;
  ui : UI
}.

(** The fetch calls of a trace. *)
Definition fetch_calls (tr : list Event) : list (string * Fetch.RequestInit) :=
  flat_map (fun e => match e with
                     | CallFetch url init => [(url, init)]
                     | _ => []
                     end) tr.

(** ** Input schemas (zod) *)

Module Zod.

(** [schema.parse(v)]: the parsed value, or [None] for a ZodError. *)
Definition Schema (A : Type) : Type := JSValue -> option A.

Definition z_string : Schema string :=
  fun v => match v with JStr s => Some s | _ => None end.

Definition z_boolean : Schema bool :=
  fun v => match v with JBool b => Some b | _ => None end.

(** [inner.default(d)]: [undefined] is replaced by [d] before [inner]
    parses. *)
Definition z_default {A : Type} (inner : Schema A) (d : JSValue) : Schema A :=
  fun v => match v with JUndefined => inner d | _ => inner v end.

(** The value [z.object] hands to the schema of key [k]: [undefined] for a
    missing key; only an object is accepted. *)
Definition shape_field (v : JSValue) (k : string) : option JSValue :=
  match v with
  | JObj props =>
      Some (match JS.lookup k props with Some x => x | None => JUndefined end)
  | _ => None
  end.

Definition key {A : Type} (k : string) (s : Schema A) : Schema A :=
  fun v => match shape_field v k with Some x => s x | None => None end.

End Zod.

(** ** [google/src/index.ts] *)

Module Google.

Import AsyncM.
Local Open Scope async_scope.

Record SendEmailInput : Type := {
  to : string;
  subject : string;
  body : string
}.

(** [sendEmailConfig.input] *)
Definition sendEmail_input : Zod.Schema SendEmailInput :=
  fun v =>
    match Zod.key "to" Zod.z_string v,
          Zod.key "subject" Zod.z_string v,
          Zod.key "body" Zod.z_string v with
    | Some t, Some s, Some b => Some {| to := t; subject := s; body := b |}
    | _, _, _ => None
    end.

(** Lines 46-52: the message the handler composes. *)
Definition compose_email (input : SendEmailInput) : string :=
  JS.join ""
    [ "Content-Type: text/plain; charset=" ++ dquote ++ "UTF-8" ++ dquote ++ LF;
      "MIME-Version: 1.0" ++ LF;
      "To: " ++ to input ++ LF;
      "Subject: " ++ subject input ++ LF ++ LF;
      body input ].

Definition send_url : string :=
  "https://gmail.googleapis.com/gmail/v1/users/me/messages/send".

(** Lines 55-64: the [init] argument of [fetch]. *)
Definition send_request (tokens : OAuth2Tokens) (encodedEmail : string)
  : Fetch.RequestInit :=
  {| Fetch.method := Some "POST";
     Fetch.headers :=
       [ ("Authorization", "Bearer " ++ accessToken tokens);
         ("Content-Type", "application/json") ];
     Fetch.body := JS.JSON_stringify (JObj [("raw", JStr encodedEmail)]) |}.

(** Lines 29-42: the object returned when the caller has no tokens. *)
Definition authenticate_result (authUrl : JSValue) : ToolResult :=
  {| text := "Please authenticate with Google first";
     data := JNull;
     ui :=
       {| type := "oauth2";
          uiData :=
            JS.JSON_stringify
              (JObj
                 [ ("title", JStr "Google Authentication");
                   ("logo", JStr "https://www.google.com/gmail/about/static-2.0/images/logo-gmail.png");
                   ("content", JStr "Please authenticate with Google to send emails");
                   ("url", authUrl);
                   ("provider", JStr "google") ]) |} |}.

(** [sendEmailConfig.handler], lines 24-81.  A property of the parsed reply
    is read once, and converted to text once, where the source first does
    so; the later reads and conversions of the same value give the same
    result. *)
Definition sendEmail_handler (input : SendEmailInput) (agentInfo : AgentInfo)
    (app : App) : Async ToolResult :=
  tokens <- tokenStore_get (id agentInfo) ;;
  match tokens with
  | None =>
      authUrl <- oauth2_generateAuthUrl app "google" (id agentInfo) ;;
      ret (authenticate_result authUrl)
  | Some tokens =>
      let email := compose_email input in
      let encodedEmail := Base64.encodeEmail email in
      response <- fetch send_url (send_request tokens encodedEmail) ;;
      result <- settle (Fetch.json response) ;;
      messageId <- settle (JS.get result "id") ;;
      shownId <- settle (JS.ToString messageId) ;;
      ret {| text := "Email sent successfully";
             data := JObj [("messageId", messageId)];
             ui :=
               {| type := "card";
                  uiData :=
                    JS.JSON_stringify
                      (JObj
                         [ ("title", JStr "Email Sent");
                           ("content",
                            JStr ("To: " ++ to input ++ LF
                                  ++ "Subject: " ++ subject input ++ LF
                                  ++ "Message ID: " ++ shownId)) ]) |} |}
  end.

(** [providers.google.onSuccess], lines 105-109. *)
Definition onSuccess (agentId : string) (tokens : OAuth2Tokens) : Async unit :=
  console_log [LogString "Completed OAuth flow for agent"; LogString agentId;
               LogTokens tokens] ;;;
  tokenStore_set agentId tokens ;;;
  console_log [LogString ("Stored tokens for agent " ++ agentId)].

End Google.

(** ** [gist-creator/src/index.ts] *)

Module GistCreator.

Import AsyncM.
Local Open Scope async_scope.

(** Lines 25-39 and 92-106: both tools return the same object when the
    caller has no tokens. *)
Definition authenticate_result (authUrl : JSValue) : ToolResult :=
  {| text := "Please authenticate with GitHub first, i have displayed a component to authenticate with GitHub";
     data := JNull;
     ui :=
       {| type := "oauth2";
          uiData :=
            JS.JSON_stringify
              (JObj
                 [ ("title", JStr "GitHub Authentication");
                   ("logo", JStr "https://github.githubassets.com/assets/GitHub-Mark-ea2971cee799.png");
                   ("content", JStr "Please authenticate with GitHub to continue");
                   ("url", authUrl);
                   ("provider", JStr "github") ]) |} |}.

Definition user_url : string := "https://api.github.com/user".
Definition gists_url : string := "https://api.github.com/gists".

(** Lines 42-47: [fetch] is called without method or body. *)
Definition profile_request (tokens : OAuth2Tokens) : Fetch.RequestInit :=
  {| Fetch.method := None;
     Fetch.headers :=
       [ ("Authorization", "Bearer " ++ accessToken tokens);
         ("Accept", "application/json") ];
     Fetch.body := None |}.

(** [getUserProfileConfig.handler], lines 20-68.  The input schema is
    [z.object({})]: the handler reads nothing of its first argument. *)
Definition getUserProfile_handler (agentInfo : AgentInfo) (app : App)
  : Async ToolResult :=
  tokens <- tokenStore_get (id agentInfo) ;;
  match tokens with
  | None =>
      authUrl <- oauth2_generateAuthUrl app "github" (id agentInfo) ;;
      ret (authenticate_result authUrl)
  | Some tokens =>
      response <- fetch user_url (profile_request tokens) ;;
      profile <- settle (Fetch.json response) ;;
      login <- settle (JS.get profile "login") ;;
      shownLogin <- settle (JS.ToString login) ;;
      name <- settle (JS.get profile "name") ;;
      email <- settle (JS.get profile "email") ;;
      bio <- settle (JS.get profile "bio") ;;
      public_repos <- settle (JS.get profile "public_repos") ;;
      shownName <- settle (JS.ToString name) ;;
      shownEmail <- settle (JS.ToString email) ;;
      shownBio <- settle (JS.ToString bio) ;;
      shownRepos <- settle (JS.ToString public_repos) ;;
      ret {| text := "Retrieved GitHub profile for " ++ shownLogin;
             data :=
               JObj [ ("login", login); ("name", name); ("email", email);
                      ("bio", bio); ("public_repos", public_repos) ];
             ui :=
               {| type := "card";
                  uiData :=
                    JS.JSON_stringify
                      (JObj
                         [ ("title", JStr "GitHub Profile");
                           ("content",
                            JStr ("Login: " ++ shownLogin ++ LF
                                  ++ "Name: " ++ shownName ++ LF
                                  ++ "Email: " ++ shownEmail ++ LF
                                  ++ "Bio: " ++ shownBio ++ LF
                                  ++ "Public Repos: " ++ shownRepos)) ]) |} |}
  end.

Record CreateGistInput : Type := {
  description : string;
  isPublic : bool;
  filename : string;
  content : string
}.

(** [createGistConfig.input], lines 75-80. *)
Definition createGist_input : Zod.Schema CreateGistInput :=
  fun v =>
    match Zod.key "description" Zod.z_string v,
          Zod.key "public" (Zod.z_default Zod.z_boolean (JBool true)) v,
          Zod.key "filename" Zod.z_string v,
          Zod.key "content" Zod.z_string v with
    | Some d, Some p, Some f, Some c =>
        Some {| description := d; isPublic := p; filename := f; content := c |}
    | _, _, _, _ => None
    end.

(** Lines 116-124: the object given to [JSON.stringify]. *)
Definition gist_payload (input : CreateGistInput) : JSValue :=
  JObj
    [ ("description", JStr (description input));
      ("public", JBool (isPublic input));
      ("files", JObj [ (filename input, JObj [("content", JStr (content input))]) ]) ].

(** Lines 109-125. *)
Definition gist_request (tokens : OAuth2Tokens) (input : CreateGistInput)
  : Fetch.RequestInit :=
  {| Fetch.method := Some "POST";
     Fetch.headers :=
       [ ("Authorization", "Bearer " ++ accessToken tokens);
         ("Accept", "application/json");
         ("Content-Type", "application/json") ];
     Fetch.body := JS.JSON_stringify (gist_payload input) |}.

(** [createGistConfig.handler], lines 83-145. *)
Definition createGist_handler (input : CreateGistInput) (agentInfo : AgentInfo)
    (app : App) : Async ToolResult :=
  tokens <- tokenStore_get (id agentInfo) ;;
  match tokens with
  | None =>
      authUrl <- oauth2_generateAuthUrl app "github" (id agentInfo) ;;
      ret (authenticate_result authUrl)
  | Some tokens =>
      response <- fetch gists_url (gist_request tokens input) ;;
      gist <- settle (Fetch.json response) ;;
      html_url <- settle (JS.get gist "html_url") ;;
      shownUrl <- settle (JS.ToString html_url) ;;
      gistId <- settle (JS.get gist "id") ;;
      shownId <- settle (JS.ToString gistId) ;;
      ret {| text := "Created Gist: " ++ shownUrl;
             data := JObj [ ("html_url", html_url); ("id", gistId) ];
             ui :=
               {| type := "card";
                  uiData :=
                    JS.JSON_stringify
                      (JObj
                         [ ("title", JStr "GitHub Gist");
                           ("content",
                            JStr ("URL: " ++ shownUrl ++ LF
                                  ++ "ID: " ++ shownId));
                           ("buttonText", JStr "View Gist");
                           ("buttonUrl", html_url) ]) |} |}
  end.

(** [providers.github.onSuccess], lines 171-175. *)
Definition onSuccess (agentId : string) (tokens : OAuth2Tokens) : Async unit :=
  console_log [LogString "Completed OAuth flow for agent"; LogString agentId;
               LogTokens tokens] ;;;
  tokenStore_set agentId tokens ;;;
  console_log [LogString ("Stored tokens for agent " ++ agentId)].

End GistCreator.

(** ** The three tools, and the requests a service process serves *)

Inductive ToolCall : Type :=
| SendEmail : Google.SendEmailInput -> ToolCall
| GetProfile : ToolCall
| CreateGist : GistCreator.CreateGistInput -> ToolCall.

(** The handler the host runs for a call. *)
Definition handler_of (c : ToolCall) : AgentInfo -> App -> Async ToolResult :=
  match c with
  | SendEmail input => Google.sendEmail_handler input
  | GetProfile => GistCreator.getUserProfile_handler
  | CreateGist input => GistCreator.createGist_handler input
  end.

(** The provider each tool names in [generateAuthUrl] and in its card. *)
Definition provider_of (c : ToolCall) : string :=
  match c with
  | SendEmail _ => "google"
  | GetProfile | CreateGist _ => "github"
  end.

Definition authenticate_result_of (c : ToolCall) : JSValue -> ToolResult :=
  match c with
  | SendEmail _ => Google.authenticate_result
  | GetProfile | CreateGist _ => GistCreator.authenticate_result
  end.

(** The OAuth2 completion callback of the service that hosts a tool. *)
Definition onSuccess_of (c : ToolCall) : string -> OAuth2Tokens -> Async unit :=
  match c with
  | SendEmail _ => Google.onSuccess
  | GetProfile | CreateGist _ => GistCreator.onSuccess
  end.

(** What a running service does, one request after the other: the SDK calls
    [onSuccess] when an OAuth2 flow completes, and a tool's handler when the
    tool is invoked. *)
Inductive Request : Type :=
| Completion : string -> OAuth2Tokens -> Request
| Invocation : ToolCall -> AgentInfo -> App -> Request.

Module Service.

Inductive Name : Type := google | github.

Definition hosts (s : Name) (c : ToolCall) : bool :=
  match s, c with
  | google, SendEmail _ => true
  | github, GetProfile => true
  | github, CreateGist _ => true
  | _, _ => false
  end.

Definition onSuccess (s : Name) : string -> OAuth2Tokens -> Async unit :=
  match s with
  | google => Google.onSuccess
  | github => GistCreator.onSuccess
  end.

(** The world after a request.  A tool the service does not register is
    not run. *)
Definition serve (s : Name) (net : Fetch.Network) (w : World) (r : Request)
  : World :=
  match r with
  | Completion agentId tokens => snd (onSuccess s agentId tokens net w)
  | Invocation c agentInfo app =>
      if hosts s c then snd (handler_of c agentInfo app net w) else w
  end.

(** [const tokenStore = new Map()] at start-up. *)
Definition init : World := {| tokenStore := JSMap.empty; trace := [] |}.

Definition run (s : Name) (rs : list (Fetch.Network * Request)) : World :=
  fold_left (fun w nr => serve s (fst nr) w (snd nr)) rs init.

End Service.

(** ** Vocabulary of the properties *)

(** A computation that leaves the store as it found it. *)
Definition keeps_store {A : Type} (m : Async A) : Prop :=
  forall net w, tokenStore (snd (m net w)) = tokenStore w.

(** The [fetch] a tool issues for a caller whose tokens are [tokens]. *)
Definition request_of (c : ToolCall) (tokens : OAuth2Tokens)
  : string * Fetch.RequestInit :=
  match c with
  | SendEmail input =>
      (Google.send_url,
       Google.send_request tokens (Base64.encodeEmail (Google.compose_email input)))
  | GetProfile => (GistCreator.user_url, GistCreator.profile_request tokens)
  | CreateGist input => (GistCreator.gists_url, GistCreator.gist_request tokens input)
  end.

(** The fields of the data payload of a tool, each with the property of the
    parsed reply it is read from. *)
Definition data_fields (c : ToolCall) : list (string * string) :=
  match c with
  | SendEmail _ => [("messageId", "id")]
  | GetProfile =>
      [("login", "login"); ("name", "name"); ("email", "email"); ("bio", "bio");
       ("public_repos", "public_repos")]
  | CreateGist _ => [("html_url", "html_url"); ("id", "id")]
  end.

(** A property of a value other than [null] and [undefined]: its value, or
    [undefined] when the value has no such property. *)
Definition read (v : JSValue) (k : string) : JSValue :=
  match JS.get v k with
  | Fulfilled x => x
  | Rejected _ => JUndefined
  end.

(** The properties of the parsed reply a tool converts to text, in the
    order of the template literals. *)
Definition printed (c : ToolCall) : list string :=
  match c with
  | SendEmail _ => ["id"]
  | GetProfile => ["login"; "name"; "email"; "bio"; "public_repos"]
  | CreateGist _ => ["html_url"; "id"]
  end.

(** All of them convert. *)
Definition converts (c : ToolCall) (v : JSValue) : bool :=
  forallb (fun k => negb (JS.throws (read v k))) (printed c).

(** [null] and [undefined], the values no property can be read of. *)
Definition nullish (v : JSValue) : bool :=
  match v with
  | JUndefined | JNull => true
  | _ => false
  end.

(** The world with one call more in its trace. *)
Definition log (w : World) (e : Event) : World :=
  {| tokenStore := tokenStore w; trace := (trace w ++ [e])%list |}.

(** The authenticate result the spec describes: the card of the tool with a
    non-empty authorization URL in it. *)
Definition reply_with_url (c : ToolCall) (r : ToolResult) : Prop :=
  exists url, url <> "" /\ r = authenticate_result_of c (JStr url).

(** What the two substitutions make of one character. *)
Definition url_char (x : ascii) : ascii :=
  let y := if Ascii.eqb x "+" then "-"%char else x in
  if Ascii.eqb y "/" then "_"%char else y.

(** The three [replace] calls of line 53, on any text. *)
Definition url_form (s : string) : string :=
  Base64.strip_padding (Base64.replace_all "/" "_" (Base64.replace_all "+" "-" s)).

(** The 256 bytes, to settle facts about one or two bytes by enumeration. *)
Definition all_ascii : list ascii := map ascii_of_nat (seq 0 256).

(** The 6-bit values of a group of bytes. *)
Definition six1 (a : N) : N := N.shiftr a 2.
Definition six2 (a b : N) : N := N.lor (N.shiftl (N.land a 3) 4) (N.shiftr b 4).
Definition six3 (b c : N) : N := N.lor (N.shiftl (N.land b 15) 2) (N.shiftr c 6).
Definition six4 (c : N) : N := N.land c 63.

(** The last 6-bit value of a group of one byte and of a group of two. *)
Definition six2_last (a : N) : N := N.shiftl (N.land a 3) 4.
Definition six3_last (b : N) : N := N.shiftl (N.land b 15) 2.

(** The character written for the value [v] is read back as [v]. *)
Definition reads_as (v : N) : bool :=
  match Base64.url_value (url_char (Base64.digit v)) with
  | Some v' => N.eqb v' v
  | None => false
  end.

(** The two kinds of result of the spec. *)
Definition needs_authentication (r : ToolResult) : Prop :=
  data r = JNull /\ type (ui r) = "oauth2".

Definition action_succeeded (r : ToolResult) : Prop :=
  data r <> JNull /\ type (ui r) = "card".

(** ** Sample inputs *)

(** A network on which every [fetch] fails. *)
Definition offline : Fetch.Network :=
  fun _ _ => Rejected (TypeError "fetch failed").

Definition sample_email : Google.SendEmailInput :=
  {| Google.to := "a@b.com"; Google.subject := "Hi"; Google.body := "hello" ++ LF |}.

(** A delegate that builds a URL from the provider and the caller. *)
Definition sample_delegate : OAuth2Handler :=
  {| generateAuthUrl := fun provider agentId =>
       Fulfilled ("https://auth.example/" ++ provider ++ "?state=" ++ agentId) |}.

Definition sample_tokens : OAuth2Tokens :=
  {| accessToken := "tok-123"; refreshToken := None; expiresAt := None |}.

(** A service in which caller [agent-1] has completed the OAuth2 flow. *)
Definition authenticated : World :=
  {| tokenStore := [("agent-1", sample_tokens)]; trace := [] |}.

(** A provider that answers every request with status 401 and a JSON error
    body, as GitHub does for a revoked token. *)
Definition unauthorized : Fetch.Network :=
  fun _ _ =>
    Fulfilled {| Fetch.status := 401;
                 Fetch.json := Fulfilled (JObj [("message", JStr "Bad credentials")]) |}.

(** A provider whose reply is an HTML error page, and one whose reply is the
    JSON text [null]. *)
Definition html_page : Fetch.Network :=
  fun _ _ =>
    Fulfilled {| Fetch.status := 502;
                 Fetch.json := Rejected (SyntaxError "Unexpected token < in JSON") |}.

Definition null_body : Fetch.Network :=
  fun _ _ => Fulfilled {| Fetch.status := 200; Fetch.json := Fulfilled JNull |}.

(** The profile reply of the spec, and a provider that sends it. *)
Definition bob : JSValue :=
  JObj [ ("login", JStr "bob"); ("name", JStr "Bob"); ("email", JStr "b@x.com");
         ("bio", JStr "hi"); ("public_repos", JNum 3) ].

Definition github_bob : Fetch.Network :=
  fun _ _ => Fulfilled {| Fetch.status := 200; Fetch.json := Fulfilled bob |}.

(** ** Start-up, lines 116-118 and 183-185 *)

Module Startup.

(** ToBoolean *)
Definition truthy (v : JSValue) : bool :=
  match v with
  | JUndefined | JNull => false
  | JBool b => b
  | JNum z => negb (Z.eqb z 0)
  | JStr s => negb (String.eqb s "")
  | JArr _ | JObj _ => true
  end.

(** [s + v] for a string [s] and a primitive [v], as [process.env] holds:
    the concatenation with the text of [v]. *)
Definition plus (s : string) (v : JSValue) : JSValue := JStr (s ++ JS.text v).

(** [a || b] *)
Definition logical_or (a b : JSValue) : JSValue := if truthy a then a else b.

(** [process.env.PORT]: a string, or [undefined] when the variable is not
    set. *)
Definition env (PORT : option string) : JSValue :=
  match PORT with
  | Some p => JStr p
  | None => JUndefined
  end.

(** The argument of the [console.log] of the [then] callback:
    ["OAuth Example Service is running on port " + process.env.PORT || 2022],
    in which [+] binds tighter than [||]. *)
Definition running_message (PORT : option string) : JSValue :=
  logical_or (plus "OAuth Example Service is running on port " (env PORT)) (JNum 2022).

End Startup.

(** ** Vocabulary of the further properties *)

(** The world after a service has served the requests [rs] from [w]. *)
Definition serve_all (s : Service.Name) (rs : list (Fetch.Network * Request))
    (w : World) : World :=
  fold_left (fun w nr => Service.serve s (fst nr) w (snd nr)) rs w.

(** The tokens of the last completion callback for [k] among requests, or
    [start] when there is none. *)
Definition last_completion (k : string) (rs : list (Fetch.Network * Request))
    (start : option OAuth2Tokens) : option OAuth2Tokens :=
  fold_left
    (fun acc nr =>
       match snd nr with
       | Completion k' tokens => if String.eqb k' k then Some tokens else acc
       | Invocation _ _ _ => acc
       end) rs start.

(** The first [console.log] of [onSuccess] for a caller and its tokens. *)
Definition completion_log (agentId : string) (tokens : OAuth2Tokens) : Event :=
  ConsoleLog [LogString "Completed OAuth flow for agent"; LogString agentId;
              LogTokens tokens].

(** Two settlements of a [fetch] that differ at most in the status of the
    reply. *)
Definition same_but_status (o1 o2 : Outcome Fetch.Response) : Prop :=
  match o1, o2 with
  | Fulfilled r1, Fulfilled r2 => Fetch.json r1 = Fetch.json r2
  | Rejected e1, Rejected e2 => e1 = e2
  | _, _ => False
  end.

(** A text made of the characters of the URL-safe alphabet only. *)
Fixpoint url_safe (s : string) : bool :=
  match s with
  | EmptyString => true
  | String c rest =>
      match Base64.url_value c with
      | Some _ => url_safe rest
      | None => false
      end
  end.

(** A text without a line feed. *)
Definition one_line (s : string) : bool := negb (Base64.occurs "010" s).

(** What [createGistConfig.input] asks of the properties of an object for it
    to parse to [input]. *)
Definition gist_input_of (props : list (string * JSValue))
    (input : GistCreator.CreateGistInput) : Prop :=
  JS.lookup "description" props = Some (JStr (GistCreator.description input))
  /\ JS.lookup "filename" props = Some (JStr (GistCreator.filename input))
  /\ JS.lookup "content" props = Some (JStr (GistCreator.content input))
  /\ match JS.lookup "public" props with
     | None | Some JUndefined => GistCreator.isPublic input = true
     | Some (JBool b) => GistCreator.isPublic input = b
     | Some _ => False
     end.

(** The same for [sendEmailConfig.input]. *)
Definition email_input_of (props : list (string * JSValue))
    (input : Google.SendEmailInput) : Prop :=
  JS.lookup "to" props = Some (JStr (Google.to input))
  /\ JS.lookup "subject" props = Some (JStr (Google.subject input))
  /\ JS.lookup "body" props = Some (JStr (Google.body input)).

(** A provider that answers [{id: "g1"}], without [html_url]. *)
Definition gist_without_url : Fetch.Network :=
  fun _ _ => Fulfilled {| Fetch.status := 201;
                          Fetch.json := Fulfilled (JObj [("id", JStr "g1")]) |}.

(** * Properties *)

(** ** The platform functions on known values *)

Example stringify_demo :
  JS.JSON_stringify (JObj [("a", JNum 3); ("u", JUndefined); ("s", JStr ("x" ++ LF))])
  = Some ("{" ++ dquote ++ "a" ++ dquote ++ ":3," ++ dquote ++ "s" ++ dquote ++ ":"
            ++ dquote ++ "x\n" ++ dquote ++ "}").
Proof. reflexivity. Qed.

Example base64_rfc4648_vectors :
  Base64.toString_base64 "" = ""
  /\ Base64.toString_base64 "f" = "Zg=="
  /\ Base64.toString_base64 "fo" = "Zm8="
  /\ Base64.toString_base64 "foo" = "Zm9v"
  /\ Base64.toString_base64 "foob" = "Zm9vYg=="
  /\ Base64.toString_base64 "fooba" = "Zm9vYmE="
  /\ Base64.toString_base64 "foobar" = "Zm9vYmFy".
Proof. repeat split; reflexivity. Qed.

(** Quotes, backslashes and control characters are escaped; a template
    literal prints [undefined] and the elements of an array as JavaScript
    does. *)
Example stringify_escapes :
  JS.JSON_stringify (JStr (dquote ++ "\" ++ LF ++ String "001"%char "é"))
  = Some (dquote ++ "\" ++ dquote ++ "\\" ++ "\n" ++ "\u0001" ++ "é" ++ dquote)
  /\ JS.ToString JUndefined = Fulfilled "undefined"
  /\ JS.ToString (JArr [JNum (-3); JNull; JStr "a"; JArr [JBool true; JNum 0]])
     = Fulfilled "-3,,a,true,0"
  /\ JS.ToString (JObj [("a", JNum 1)]) = Fulfilled "[object Object]"
  /\ JS.ToString (JObj [("toString", JNum 1)])
     = Rejected (TypeError "Cannot convert object to primitive value")
  /\ JS.ToString (JArr [JNull; JObj [("toString", JNull)]])
     = Rejected (TypeError "Cannot convert object to primitive value").
Proof. repeat split; reflexivity. Qed.

(** send-gmail on a reply [{id: "m1"}]. *)
Example sendEmail_on_reply :
  fst (Google.sendEmail_handler sample_email {| id := "agent-1" |} {| oauth2 := None |}
         (fun _ _ => Fulfilled {| Fetch.status := 200;
                                  Fetch.json := Fulfilled (JObj [("id", JStr "m1")]) |})
         authenticated)
  = Fulfilled
      {| text := "Email sent successfully";
         data := JObj [("messageId", JStr "m1")];
         ui := {| type := "card";
                  uiData :=
                    Some ("{" ++ dquote ++ "title" ++ dquote ++ ":" ++ dquote ++ "Email Sent"
                          ++ dquote ++ "," ++ dquote ++ "content" ++ dquote ++ ":" ++ dquote
                          ++ "To: a@b.com\nSubject: Hi\nMessage ID: m1" ++ dquote ++ "}") |} |}.
Proof. reflexivity. Qed.

(** ** The [Map] *)

Section JSMapFacts.

Context {V : Type}.
Implicit Types (m : JSMap.t V) (k : string) (v : V).

Lemma JSMap_get_set_same m k v : JSMap.get (JSMap.set m k v) k = Some v.
Proof.
  induction m as [|[k' v'] m IH]; simpl.
  - now rewrite String.eqb_refl.
  - destruct (String.eqb k' k) eqn:E; simpl; now rewrite E.
Qed.

Lemma JSMap_get_set_other m k k' v :
  k' <> k -> JSMap.get (JSMap.set m k v) k' = JSMap.get m k'.
Proof.
  intros Hne. induction m as [|[k0 v0] m IH]; simpl.
  - destruct (String.eqb k k') eqn:E; [|reflexivity].
    apply String.eqb_eq in E. congruence.
  - destruct (String.eqb k0 k) eqn:E; simpl.
    + apply String.eqb_eq in E. subst k0.
      destruct (String.eqb k k') eqn:E'; [|reflexivity].
      apply String.eqb_eq in E'. congruence.
    + now rewrite IH.
Qed.

(** [set] adds an entry for a key only when the key has none. *)
Lemma JSMap_count_set m k v k' :
  JSMap.count (JSMap.set m k v) k' =
    if String.eqb k k' then Nat.max 1 (JSMap.count m k') else JSMap.count m k'.
Proof.
  unfold JSMap.count.
  induction m as [|[k0 v0] m IH]; simpl.
  - destruct (String.eqb k k'); reflexivity.
  - destruct (String.eqb k0 k) eqn:E; simpl.
    + apply String.eqb_eq in E. subst k0.
      destruct (String.eqb k k'); simpl; [lia | reflexivity].
    + destruct (String.eqb k0 k') eqn:E0; simpl; rewrite IH.
      * apply String.eqb_eq in E0. subst k0.
        rewrite String.eqb_sym in E. now rewrite E.
      * reflexivity.
Qed.

Lemma JSMap_count_set_le m k v k' :
  (JSMap.count m k' <= 1)%nat -> (JSMap.count (JSMap.set m k v) k' <= 1)%nat.
Proof.
  intros H. rewrite JSMap_count_set. destruct (String.eqb k k'); lia.
Qed.

(** The entries kept under a key after [set]: the new one alone, when there
    was at most one before. *)
Lemma JSMap_entries_set m k v :
  (JSMap.count m k <= 1)%nat ->
  filter (fun e => String.eqb (fst e) k) (JSMap.set m k v) = [(k, v)].
Proof.
  unfold JSMap.count.
  induction m as [|[k0 v0] m IH]; simpl; intros Hc.
  - now rewrite String.eqb_refl.
  - destruct (String.eqb k0 k) eqn:E; simpl; rewrite E.
    + apply String.eqb_eq in E. subst k0. simpl in Hc.
      destruct (filter _ m) eqn:F; [reflexivity | simpl in Hc; lia].
    + now apply IH.
Qed.

End JSMapFacts.

(** ** Running the monad *)

Lemma fetch_calls_app tr tr' :
  fetch_calls (tr ++ tr')%list = (fetch_calls tr ++ fetch_calls tr')%list.
Proof. unfold fetch_calls. now rewrite flat_map_app. Qed.

Section Frame.

Context {A B : Type}.

Lemma keeps_store_ret (a : A) : keeps_store (AsyncM.ret a).
Proof. now intros net w. Qed.

Lemma keeps_store_settle (o : Outcome A) : keeps_store (AsyncM.settle o).
Proof. now intros net w. Qed.

Lemma keeps_store_bind (m : Async A) (f : A -> Async B) :
  keeps_store m -> (forall a, keeps_store (f a)) -> keeps_store (AsyncM.bind m f).
Proof.
  intros Hm Hf net w. unfold AsyncM.bind.
  specialize (Hm net w). destruct (m net w) as [[a|e] w']; simpl in *.
  - now rewrite Hf.
  - exact Hm.
Qed.

End Frame.

Lemma keeps_store_emit e : keeps_store (AsyncM.emit e).
Proof. now intros net w. Qed.

Lemma keeps_store_get k : keeps_store (AsyncM.tokenStore_get k).
Proof. now intros net w. Qed.

Lemma keeps_store_fetch url init : keeps_store (AsyncM.fetch url init).
Proof. now intros net w. Qed.

Create HintDb frame.
#[local] Hint Resolve keeps_store_emit keeps_store_get keeps_store_fetch : frame.
#[local] Hint Extern 1 (keeps_store (AsyncM.ret _)) => apply keeps_store_ret : frame.
#[local] Hint Extern 1 (keeps_store (AsyncM.settle _)) => apply keeps_store_settle : frame.
#[local] Hint Extern 2 (keeps_store (AsyncM.bind _ _)) =>
  apply keeps_store_bind; [|intros] : frame.
#[local] Hint Extern 3 (keeps_store (match ?o with Some _ => _ | None => _ end)) =>
  destruct o : frame.

Lemma keeps_store_generateAuthUrl app provider agentId :
  keeps_store (AsyncM.oauth2_generateAuthUrl app provider agentId).
Proof. unfold AsyncM.oauth2_generateAuthUrl. auto 10 with frame. Qed.

#[local] Hint Resolve keeps_store_generateAuthUrl : frame.

Lemma sendEmail_keeps_store input agentInfo app :
  keeps_store (Google.sendEmail_handler input agentInfo app).
Proof. unfold Google.sendEmail_handler. auto 20 with frame. Qed.

Lemma getUserProfile_keeps_store agentInfo app :
  keeps_store (GistCreator.getUserProfile_handler agentInfo app).
Proof. unfold GistCreator.getUserProfile_handler. auto 30 with frame. Qed.

Lemma createGist_keeps_store input agentInfo app :
  keeps_store (GistCreator.createGist_handler input agentInfo app).
Proof. unfold GistCreator.createGist_handler. auto 30 with frame. Qed.

Lemma handler_keeps_store c agentInfo app : keeps_store (handler_of c agentInfo app).
Proof.
  destruct c; simpl;
    auto using sendEmail_keeps_store, getUserProfile_keeps_store, createGist_keeps_store.
Qed.

(** ** The two branches of a handler *)

Lemma get_read v k : nullish v = false -> JS.get v k = Fulfilled (read v k).
Proof.
  unfold read. destruct v; simpl; try discriminate; try reflexivity.
  intros _. now destruct (JS.lookup k l).
Qed.

Ltac run_async :=
  unfold AsyncM.bind, AsyncM.tokenStore_get, AsyncM.fetch, AsyncM.settle,
    AsyncM.ret, AsyncM.emit, AsyncM.console_log, AsyncM.tokenStore_set; simpl.

(** Without tokens every handler does the same: it asks the delegate, if there
    is one, and returns its card. *)
Lemma handler_absent c agentInfo app net w :
  JSMap.get (tokenStore w) (id agentInfo) = None ->
  handler_of c agentInfo app net w =
    match oauth2 app with
    | None => (Fulfilled (authenticate_result_of c JUndefined), w)
    | Some h =>
        (match generateAuthUrl h (provider_of c) (id agentInfo) with
         | Fulfilled url => Fulfilled (authenticate_result_of c (JStr url))
         | Rejected e => Rejected e
         end,
         log w (CallGenerateAuthUrl (provider_of c) (id agentInfo)))
    end.
Proof.
  intros Hget.
  destruct c; simpl;
    unfold Google.sendEmail_handler, GistCreator.getUserProfile_handler,
      GistCreator.createGist_handler, AsyncM.oauth2_generateAuthUrl;
    run_async; rewrite Hget;
    (destruct (oauth2 app) as [h|]; run_async; [|reflexivity]);
    now destruct (generateAuthUrl h _ (id agentInfo)).
Qed.

(** With tokens every handler issues its [fetch] first; the world it leaves
    has this one call more, however the call settles. *)
Lemma handler_present_world c agentInfo app net w tokens :
  JSMap.get (tokenStore w) (id agentInfo) = Some tokens ->
  snd (handler_of c agentInfo app net w) =
    log w (CallFetch (fst (request_of c tokens)) (snd (request_of c tokens))).
Proof.
  intros Hget.
  destruct c; simpl;
    unfold Google.sendEmail_handler, GistCreator.getUserProfile_handler,
      GistCreator.createGist_handler;
    run_async; rewrite Hget; simpl;
    match goal with |- context [net ?u ?i] => destruct (net u i) as [resp|e] end;
    try reflexivity;
    (destruct (Fetch.json resp) as [v|e]; [|reflexivity]);
    repeat match goal with
           | |- context [JS.get v ?k] => destruct (JS.get v k); try reflexivity
           | |- context [JS.ToString ?x] => destruct (JS.ToString x); try reflexivity
           end.
Qed.

(** The outcome of the action branch: a failed [fetch], a body that is not
    JSON and a [null] body reject, and so does a reply with a property that
    cannot be converted to text; every other reply is shaped into a card,
    whatever its status and whichever fields it has. *)
Lemma handler_present_outcome c agentInfo app net w tokens :
  JSMap.get (tokenStore w) (id agentInfo) = Some tokens ->
  match net (fst (request_of c tokens)) (snd (request_of c tokens)) with
  | Rejected e => fst (handler_of c agentInfo app net w) = Rejected e
  | Fulfilled resp =>
      match Fetch.json resp with
      | Rejected e => fst (handler_of c agentInfo app net w) = Rejected e
      | Fulfilled v =>
          if nullish v
          then exists e, fst (handler_of c agentInfo app net w) = Rejected e
          else if converts c v
          then exists r,
              fst (handler_of c agentInfo app net w) = Fulfilled r
              /\ type (ui r) = "card"
              /\ data r = JObj (map (fun f => (fst f, read v (snd f))) (data_fields c))
          else exists e, fst (handler_of c agentInfo app net w) = Rejected e
      end
  end.
Proof.
  intros Hget.
  destruct c; simpl;
    unfold Google.sendEmail_handler, GistCreator.getUserProfile_handler,
      GistCreator.createGist_handler;
    run_async; rewrite Hget; simpl;
    match goal with |- context [net ?u ?i] => destruct (net u i) as [resp|e] end;
    try reflexivity;
    (destruct (Fetch.json resp) as [v|e]; [|reflexivity]);
    (destruct (nullish v) eqn:Hv;
     [ destruct v; try discriminate; simpl; eauto
     | repeat rewrite (get_read v) by exact Hv;
       unfold converts, JS.ToString; simpl;
       repeat match goal with
              | |- context [JS.throws (read v ?k)] =>
                  destruct (JS.throws (read v k)); simpl; eauto
              end ]).
Qed.

(** ** The authenticate branch *)

(** The shape of the card of the authenticate branch. *)
Lemma authenticate_result_shape c authUrl :
  let r := authenticate_result_of c authUrl in
  data r = JNull
  /\ String.prefix "Please authenticate with " (text r) = true
  /\ type (ui r) = "oauth2"
  /\ exists title logo content,
      uiData (ui r) =
        JS.JSON_stringify
          (JObj [ ("title", JStr title); ("logo", JStr logo); ("content", JStr content);
                  ("url", authUrl); ("provider", JStr (provider_of c)) ]).
Proof.
  destruct c; (split; [reflexivity|]); (split; [reflexivity|]);
    (split; [reflexivity|]);
    unfold authenticate_result_of, Google.authenticate_result,
      GistCreator.authenticate_result; cbn [uiData ui provider_of];
    do 3 eexists; reflexivity.
Qed.

(** C1, as the spec states it, fails where the host passes an [app] without
    [oauth2]: the handler guards the call with [?.], [authUrl] is [undefined],
    and [JSON.stringify] leaves [url] out of the card.  No credential is
    stored, a result is returned, and it carries no URL. *)
Lemma sendEmail_without_delegate_has_no_url :
  let agentInfo := {| id := "agent-1" |} in
  let app := {| oauth2 := None |} in
  let run := handler_of (SendEmail sample_email) agentInfo app offline Service.init in
  JSMap.get (tokenStore Service.init) (id agentInfo) = None
  /\ fst run = Fulfilled (authenticate_result_of (SendEmail sample_email) JUndefined)
  /\ (exists r,
        fst run = Fulfilled r
        /\ uiData (ui r)
           = Some ("{" ++ dquote ++ "title" ++ dquote ++ ":" ++ dquote
                   ++ "Google Authentication" ++ dquote
                   ++ "," ++ dquote ++ "logo" ++ dquote ++ ":" ++ dquote
                   ++ "https://www.google.com/gmail/about/static-2.0/images/logo-gmail.png"
                   ++ dquote
                   ++ "," ++ dquote ++ "content" ++ dquote ++ ":" ++ dquote
                   ++ "Please authenticate with Google to send emails" ++ dquote
                   ++ "," ++ dquote ++ "provider" ++ dquote ++ ":" ++ dquote
                   ++ "google" ++ dquote ++ "}"))
  /\ ~ (exists r, fst run = Fulfilled r /\ reply_with_url (SendEmail sample_email) r).
Proof.
  simpl. split; [reflexivity|]. split; [reflexivity|].
  split; [eexists; split; reflexivity|].
  intros (r & Hr & url & _ & Hurl). subst r.
  injection Hr as Hr. discriminate Hr.
Qed.

(** C1 (amended): for a caller without a credential no tool performs an
    outbound HTTP call.  When the host's [app] has an OAuth2 delegate, the
    tool asks it once for an authorization URL for its provider and this
    caller, and when that yields [url] the tool returns a result with null
    data, a text that tells the caller to authenticate and an [oauth2] card
    carrying [url] and the provider name; when [app.oauth2] is missing the
    same result is returned with no [url] in the card. *)
Theorem authenticate_branch c agentInfo app net w :
  JSMap.get (tokenStore w) (id agentInfo) = None ->
  let run := handler_of c agentInfo app net w in
  (exists evs, trace (snd run) = (trace w ++ evs)%list /\ fetch_calls evs = [])
  /\ match oauth2 app with
     | Some h =>
         trace (snd run) =
           (trace w ++ [CallGenerateAuthUrl (provider_of c) (id agentInfo)])%list
         /\ forall url,
             generateAuthUrl h (provider_of c) (id agentInfo) = Fulfilled url ->
             exists r,
               fst run = Fulfilled r
               /\ r = authenticate_result_of c (JStr url)
               /\ data r = JNull
               /\ String.prefix "Please authenticate with " (text r) = true
               /\ type (ui r) = "oauth2"
               /\ exists title logo content,
                   uiData (ui r) =
                     JS.JSON_stringify
                       (JObj [ ("title", JStr title); ("logo", JStr logo);
                               ("content", JStr content); ("url", JStr url);
                               ("provider", JStr (provider_of c)) ])
     | None =>
         trace (snd run) = trace w
         /\ exists r,
             fst run = Fulfilled r
             /\ r = authenticate_result_of c JUndefined
             /\ data r = JNull
             /\ String.prefix "Please authenticate with " (text r) = true
             /\ type (ui r) = "oauth2"
             /\ exists title logo content,
                 uiData (ui r) =
                   JS.JSON_stringify
                     (JObj [ ("title", JStr title); ("logo", JStr logo);
                             ("content", JStr content);
                             ("provider", JStr (provider_of c)) ])
     end.
Proof.
  intros Hget run. subst run. rewrite (handler_absent c agentInfo app net w Hget).
  destruct (oauth2 app) as [h|]; simpl.
  - split; [eexists; split; [reflexivity|reflexivity]|].
    split; [reflexivity|].
    intros url Hurl. rewrite Hurl. eexists. split; [reflexivity|].
    split; [reflexivity|]. apply authenticate_result_shape.
  - split; [exists []; split; [now rewrite app_nil_r|reflexivity]|].
    split; [reflexivity|].
    eexists. split; [reflexivity|]. split; [reflexivity|].
    destruct c; (split; [reflexivity|]); (split; [reflexivity|]);
      (split; [reflexivity|]);
      unfold authenticate_result_of, Google.authenticate_result,
        GistCreator.authenticate_result; cbn [uiData ui provider_of];
      do 3 eexists; reflexivity.
Qed.

Lemma authenticate_branch_witness :
  let agentInfo := {| id := "agent-1" |} in
  let run := handler_of GetProfile agentInfo {| oauth2 := Some sample_delegate |}
               offline Service.init in
  trace (snd run) = [CallGenerateAuthUrl "github" "agent-1"]
  /\ exists r, fst run = Fulfilled r /\ data r = JNull /\ type (ui r) = "oauth2".
Proof.
  pose proof (authenticate_branch GetProfile {| id := "agent-1" |}
                {| oauth2 := Some sample_delegate |} offline Service.init eq_refl) as H.
  simpl in H. destruct H as (_ & Htrace & Hurl). split; [exact Htrace|].
  destruct (Hurl _ eq_refl) as (r & Hr & _ & Hd & _ & Ht & _).
  exists r. repeat split; assumption.
Defined.

(** The card for a sample URL, as text. *)
Example authenticate_card_text :
  uiData (ui (GistCreator.authenticate_result (JStr "https://auth.example/x")))
  = Some ("{" ++ dquote ++ "title" ++ dquote ++ ":" ++ dquote ++ "GitHub Authentication" ++ dquote
          ++ "," ++ dquote ++ "logo" ++ dquote ++ ":" ++ dquote
          ++ "https://github.githubassets.com/assets/GitHub-Mark-ea2971cee799.png" ++ dquote
          ++ "," ++ dquote ++ "content" ++ dquote ++ ":" ++ dquote
          ++ "Please authenticate with GitHub to continue" ++ dquote
          ++ "," ++ dquote ++ "url" ++ dquote ++ ":" ++ dquote ++ "https://auth.example/x" ++ dquote
          ++ "," ++ dquote ++ "provider" ++ dquote ++ ":" ++ dquote ++ "github" ++ dquote ++ "}").
Proof. reflexivity. Qed.

(** ** The action branch and the failures of the outbound call *)

(** C2, as the spec states it, fails on a reply with a non-success status:
    no handler looks at the status, [response.json()] parses the error body,
    the fields it lacks read as [undefined], and a card is returned. *)
Lemma getUserProfile_unauthorized_returns_result :
  let agentInfo := {| id := "agent-1" |} in
  let app := {| oauth2 := None |} in
  let run := handler_of GetProfile agentInfo app unauthorized authenticated in
  JSMap.get (tokenStore authenticated) (id agentInfo) = Some sample_tokens
  /\ (exists resp,
        unauthorized GistCreator.user_url (GistCreator.profile_request sample_tokens)
        = Fulfilled resp /\ Fetch.ok resp = false)
  /\ (exists r,
        fst run = Fulfilled r
        /\ text r = "Retrieved GitHub profile for undefined"
        /\ type (ui r) = "card"
        /\ data r = JObj [ ("login", JUndefined); ("name", JUndefined);
                           ("email", JUndefined); ("bio", JUndefined);
                           ("public_repos", JUndefined) ])
  /\ ~ (exists e, fst run = Rejected e).
Proof.
  simpl. split; [reflexivity|]. split; [eexists; split; reflexivity|].
  split; [eexists; repeat split; reflexivity|].
  intros [e He]. discriminate He.
Qed.

(** C2 (amended): with a credential present, a failure of the outbound
    call propagates as an unhandled failure of the invocation, and no Tool
    Result is returned, when [fetch] itself rejects (a network error) and
    when the body of the reply is malformed, that is not JSON, or [null].  A
    non-success status, or a body that lacks the expected fields, is not such
    a failure by itself: the reply above yields a result. *)
Theorem outbound_failures c agentInfo app net w tokens :
  JSMap.get (tokenStore w) (id agentInfo) = Some tokens ->
  let run := handler_of c agentInfo app net w in
  match net (fst (request_of c tokens)) (snd (request_of c tokens)) with
  | Rejected e => fst run = Rejected e
  | Fulfilled resp =>
      match Fetch.json resp with
      | Rejected e => fst run = Rejected e
      | Fulfilled body => body = JNull -> exists e, fst run = Rejected e
      end
  end.
Proof.
  intros Hget run. subst run.
  pose proof (handler_present_outcome c agentInfo app net w tokens Hget) as H.
  destruct (net _ _) as [resp|e]; [|exact H].
  destruct (Fetch.json resp) as [v|e]; [|exact H].
  intros ->. exact H.
Qed.

Lemma outbound_failures_witness :
  fst (handler_of GetProfile {| id := "agent-1" |} {| oauth2 := None |}
         offline authenticated)
  = Rejected (TypeError "fetch failed")
  /\ fst (handler_of GetProfile {| id := "agent-1" |} {| oauth2 := None |}
            html_page authenticated)
     = Rejected (SyntaxError "Unexpected token < in JSON")
  /\ exists e,
      fst (handler_of GetProfile {| id := "agent-1" |} {| oauth2 := None |}
             null_body authenticated) = Rejected e.
Proof.
  split; [|split].
  - exact (outbound_failures GetProfile {| id := "agent-1" |} {| oauth2 := None |}
             offline authenticated sample_tokens eq_refl).
  - exact (outbound_failures GetProfile {| id := "agent-1" |} {| oauth2 := None |}
             html_page authenticated sample_tokens eq_refl).
  - exact (outbound_failures GetProfile {| id := "agent-1" |} {| oauth2 := None |}
             null_body authenticated sample_tokens eq_refl eq_refl).
Defined.

(** ** One call, with the stored token *)

(** C3: once the completion callback of a service has stored [tokens] for a
    caller, an invocation of a tool of that service for the caller adds
    exactly one call to the trace, a [fetch], whose [Authorization] header is
    [Bearer] followed by the stored access token. *)
Theorem one_call_with_stored_token c agentId tokens app net net' w :
  let w1 := snd (onSuccess_of c agentId tokens net w) in
  let w2 := snd (handler_of c {| id := agentId |} app net' w1) in
  JSMap.get (tokenStore w1) agentId = Some tokens
  /\ exists url init,
      trace w2 = (trace w1 ++ [CallFetch url init])%list
      /\ fetch_calls (trace w2) = (fetch_calls (trace w1) ++ [(url, init)])%list
      /\ Fetch.header (Fetch.headers init) "Authorization"
         = Some ("Bearer " ++ accessToken tokens).
Proof.
  intros w1 w2.
  assert (Hget : JSMap.get (tokenStore w1) agentId = Some tokens).
  { subst w1. destruct c; simpl; unfold Google.onSuccess, GistCreator.onSuccess;
      run_async; apply JSMap_get_set_same. }
  split; [exact Hget|].
  subst w2.
  rewrite (handler_present_world c {| id := agentId |} app net' w1 tokens Hget).
  exists (fst (request_of c tokens)), (snd (request_of c tokens)).
  split; [reflexivity|]. split.
  - simpl. rewrite fetch_calls_app. reflexivity.
  - destruct c; reflexivity.
Qed.

(** ** The encoded message *)

Section EncodedForm.

Lemma occurs_replace_all c d s :
  c <> d -> Base64.occurs c (Base64.replace_all c d s) = false.
Proof.
  intros Hcd. induction s as [|x s IH]; simpl; [reflexivity|].
  rewrite IH, orb_false_r.
  destruct (Ascii.eqb x c) eqn:E.
  - apply Ascii.eqb_neq. congruence.
  - exact E.
Qed.

Lemma occurs_replace_all_other c d e s :
  d <> e -> Base64.occurs e s = false ->
  Base64.occurs e (Base64.replace_all c d s) = false.
Proof.
  intros Hde. induction s as [|x s IH]; simpl; [reflexivity|].
  intros H. apply orb_false_iff in H as [Hx Hs].
  rewrite (IH Hs), orb_false_r.
  destruct (Ascii.eqb x c); [|exact Hx].
  apply Ascii.eqb_neq. exact Hde.
Qed.

Lemma occurs_strip_padding e s :
  Base64.occurs e s = false -> Base64.occurs e (Base64.strip_padding s) = false.
Proof.
  induction s as [|x s IH]; [reflexivity|].
  intros H. cbn [Base64.strip_padding].
  destruct (Base64.all_eq (String x s)); [reflexivity|].
  simpl in *. apply orb_false_iff in H as [Hx Hs].
  now rewrite Hx, (IH Hs).
Qed.

Lemma strip_padding_empty s :
  Base64.strip_padding s = "" -> Base64.all_eq s = true.
Proof.
  destruct s as [|x s]; [reflexivity|].
  cbn [Base64.strip_padding].
  destruct (Base64.all_eq (String x s)); [reflexivity | discriminate].
Qed.

Lemma last_char_strip_padding s :
  Base64.last_char (Base64.strip_padding s) <> Some "="%char.
Proof.
  induction s as [|x s IH]; [discriminate|].
  cbn [Base64.strip_padding].
  destruct (Base64.all_eq (String x s)) eqn:Hall; [discriminate|].
  destruct (Base64.strip_padding s) as [|a s0] eqn:Es.
  - apply strip_padding_empty in Es. simpl in Hall.
    rewrite Es, andb_true_r in Hall.
    simpl. intros H. injection H as H. subst x. discriminate Hall.
  - exact IH.
Qed.

(** Whatever the message, what line 53 produces has no [+], no [/] and
    does not end in [=]. *)
Lemma encodeEmail_url_safe email :
  Base64.occurs "+" (Base64.encodeEmail email) = false
  /\ Base64.occurs "/" (Base64.encodeEmail email) = false
  /\ Base64.last_char (Base64.encodeEmail email) <> Some "="%char.
Proof.
  unfold Base64.encodeEmail. repeat split.
  - apply occurs_strip_padding, occurs_replace_all_other; [discriminate|].
    apply occurs_replace_all. discriminate.
  - apply occurs_strip_padding, occurs_replace_all. discriminate.
  - apply last_char_strip_padding.
Qed.

End EncodedForm.

(** ** Every message survives the encoding *)

Section RoundTrip.

Lemma url_form_cons x s :
  Ascii.eqb (url_char x) "=" = false ->
  url_form (String x s) = String (url_char x) (url_form s).
Proof.
  unfold url_form, url_char. intros H.
  cbn [Base64.replace_all Base64.strip_padding Base64.all_eq].
  now rewrite H.
Qed.

Lemma all_ascii_complete a : In a all_ascii.
Proof.
  unfold all_ascii. apply in_map_iff. exists (nat_of_ascii a). split.
  - apply ascii_nat_embedding.
  - apply in_seq. pose proof (nat_ascii_bounded a). lia.
Qed.

Lemma check1 (P : ascii -> bool) :
  forallb P all_ascii = true -> forall a, P a = true.
Proof.
  intros H a. rewrite forallb_forall in H. apply H, all_ascii_complete.
Qed.

Lemma check2 (P : ascii -> ascii -> bool) :
  forallb (fun a => forallb (P a) all_ascii) all_ascii = true ->
  forall a b, P a b = true.
Proof.
  intros H a b. apply check1. revert a. apply check1. exact H.
Qed.

Lemma reads_as_value v :
  reads_as v = true -> Base64.url_value (url_char (Base64.digit v)) = Some v.
Proof.
  unfold reads_as. destruct (Base64.url_value _) as [v'|]; [|discriminate].
  intros H. apply N.eqb_eq in H. now subst.
Qed.

Lemma reads_as_not_padding v :
  reads_as v = true -> Ascii.eqb (url_char (Base64.digit v)) "=" = false.
Proof.
  intros H. apply reads_as_value in H.
  destruct (Ascii.eqb (url_char (Base64.digit v)) "=") eqn:E; [|reflexivity].
  apply Ascii.eqb_eq in E. rewrite E in H. discriminate H.
Qed.

Lemma six1_reads a : reads_as (six1 (N_of_ascii a)) = true.
Proof. revert a. apply check1. vm_compute. reflexivity. Qed.

Lemma six2_reads a b : reads_as (six2 (N_of_ascii a) (N_of_ascii b)) = true.
Proof. revert a b. apply check2. vm_compute. reflexivity. Qed.

Lemma six3_reads b c : reads_as (six3 (N_of_ascii b) (N_of_ascii c)) = true.
Proof. revert b c. apply check2. vm_compute. reflexivity. Qed.

Lemma six4_reads c : reads_as (six4 (N_of_ascii c)) = true.
Proof. revert c. apply check1. vm_compute. reflexivity. Qed.

Lemma six2_last_reads a : reads_as (six2_last (N_of_ascii a)) = true.
Proof. revert a. apply check1. vm_compute. reflexivity. Qed.

Lemma six3_last_reads b : reads_as (six3_last (N_of_ascii b)) = true.
Proof. revert b. apply check1. vm_compute. reflexivity. Qed.

(** The bytes come back from the 6-bit values. *)
Lemma byte1_back a b :
  N.lor (N.shiftl (six1 (N_of_ascii a)) 2) (N.shiftr (six2 (N_of_ascii a) (N_of_ascii b)) 4)
  = N_of_ascii a.
Proof.
  apply N.eqb_eq. revert a b.
  apply (check2 (fun a b =>
    N.eqb (N.lor (N.shiftl (six1 (N_of_ascii a)) 2)
             (N.shiftr (six2 (N_of_ascii a) (N_of_ascii b)) 4)) (N_of_ascii a))).
  vm_compute. reflexivity.
Qed.

Lemma byte1_back_last a :
  N.lor (N.shiftl (six1 (N_of_ascii a)) 2) (N.shiftr (six2_last (N_of_ascii a)) 4)
  = N_of_ascii a.
Proof.
  apply N.eqb_eq. revert a.
  apply (check1 (fun a =>
    N.eqb (N.lor (N.shiftl (six1 (N_of_ascii a)) 2)
             (N.shiftr (six2_last (N_of_ascii a)) 4)) (N_of_ascii a))).
  vm_compute. reflexivity.
Qed.

Lemma six2_low a b :
  N.land (six2 (N_of_ascii a) (N_of_ascii b)) 15 = N.shiftr (N_of_ascii b) 4.
Proof.
  apply N.eqb_eq. revert a b.
  apply (check2 (fun a b =>
    N.eqb (N.land (six2 (N_of_ascii a) (N_of_ascii b)) 15) (N.shiftr (N_of_ascii b) 4))).
  vm_compute. reflexivity.
Qed.

Lemma six3_high b c :
  N.shiftr (six3 (N_of_ascii b) (N_of_ascii c)) 2 = N.land (N_of_ascii b) 15.
Proof.
  apply N.eqb_eq. revert b c.
  apply (check2 (fun b c =>
    N.eqb (N.shiftr (six3 (N_of_ascii b) (N_of_ascii c)) 2) (N.land (N_of_ascii b) 15))).
  vm_compute. reflexivity.
Qed.

Lemma six3_last_high b :
  N.shiftr (six3_last (N_of_ascii b)) 2 = N.land (N_of_ascii b) 15.
Proof.
  apply N.eqb_eq. revert b.
  apply (check1 (fun b =>
    N.eqb (N.shiftr (six3_last (N_of_ascii b)) 2) (N.land (N_of_ascii b) 15))).
  vm_compute. reflexivity.
Qed.

Lemma nibbles_back b :
  N.lor (N.shiftl (N.shiftr (N_of_ascii b) 4) 4) (N.land (N_of_ascii b) 15) = N_of_ascii b.
Proof.
  apply N.eqb_eq. revert b.
  apply (check1 (fun b =>
    N.eqb (N.lor (N.shiftl (N.shiftr (N_of_ascii b) 4) 4) (N.land (N_of_ascii b) 15))
      (N_of_ascii b))).
  vm_compute. reflexivity.
Qed.

Lemma byte3_back b c :
  N.lor (N.shiftl (N.land (six3 (N_of_ascii b) (N_of_ascii c)) 3) 6) (six4 (N_of_ascii c))
  = N_of_ascii c.
Proof.
  apply N.eqb_eq. revert b c.
  apply (check2 (fun b c =>
    N.eqb (N.lor (N.shiftl (N.land (six3 (N_of_ascii b) (N_of_ascii c)) 3) 6)
             (six4 (N_of_ascii c))) (N_of_ascii c))).
  vm_compute. reflexivity.
Qed.

Lemma encode_bytes_group a b c rest :
  Base64.encode_bytes (a :: b :: c :: rest) =
    String (Base64.digit (six1 a))
      (String (Base64.digit (six2 a b))
         (String (Base64.digit (six3 b c))
            (String (Base64.digit (six4 c)) (Base64.encode_bytes rest)))).
Proof. reflexivity. Qed.

Lemma values_cons x s v vs :
  Base64.url_value x = Some v -> Base64.values s = Some vs ->
  Base64.values (String x s) = Some (v :: vs).
Proof. intros Hx Hs. cbn [Base64.values]. now rewrite Hx, Hs. Qed.

Lemma list_ind3 {A : Type} (P : list A -> Prop) :
  P [] -> (forall a, P [a]) -> (forall a b, P [a; b]) ->
  (forall a b c rest, P rest -> P (a :: b :: c :: rest)) ->
  forall l, P l.
Proof.
  intros H0 H1 H2 H3.
  fix IH 1.
  intros [|a [|b [|c rest]]]; [exact H0 | apply H1 | apply H2 | apply H3, IH].
Qed.

(** The unpadded text is read back as the 6-bit values, and those as the
    bytes. *)
Lemma url_form_decodes (cs : list ascii) :
  exists vs,
    Base64.values (url_form (Base64.encode_bytes (map N_of_ascii cs))) = Some vs
    /\ Base64.decode_values vs = Some (map N_of_ascii cs).
Proof.
  induction cs as [|a|a b|a b c rest IH] using list_ind3.
  - exists []. split; reflexivity.
  - exists [six1 (N_of_ascii a); six2_last (N_of_ascii a)]. split.
    + change (Base64.encode_bytes (map N_of_ascii [a]))
        with (String (Base64.digit (six1 (N_of_ascii a)))
                (String (Base64.digit (six2_last (N_of_ascii a))) "==")).
      rewrite !url_form_cons
        by auto using reads_as_not_padding, six1_reads, six2_last_reads.
      change (url_form "==") with "".
      repeat apply values_cons;
        auto using reads_as_value, six1_reads, six2_last_reads.
    + cbn [Base64.decode_values map]. now rewrite byte1_back_last.
  - exists [six1 (N_of_ascii a); six2 (N_of_ascii a) (N_of_ascii b);
            six3_last (N_of_ascii b)]. split.
    + change (Base64.encode_bytes (map N_of_ascii [a; b]))
        with (String (Base64.digit (six1 (N_of_ascii a)))
                (String (Base64.digit (six2 (N_of_ascii a) (N_of_ascii b)))
                   (String (Base64.digit (six3_last (N_of_ascii b))) "="))).
      rewrite !url_form_cons
        by auto using reads_as_not_padding, six1_reads, six2_reads, six3_last_reads.
      change (url_form "=") with "".
      repeat apply values_cons;
        auto using reads_as_value, six1_reads, six2_reads, six3_last_reads.
    + cbn [Base64.decode_values map].
      now rewrite byte1_back, six2_low, six3_last_high, nibbles_back.
  - destruct IH as (vs & Hvs & Hdec).
    exists (six1 (N_of_ascii a) :: six2 (N_of_ascii a) (N_of_ascii b)
            :: six3 (N_of_ascii b) (N_of_ascii c) :: six4 (N_of_ascii c) :: vs).
    split.
    + cbn [map]. rewrite encode_bytes_group.
      rewrite !url_form_cons
        by auto using reads_as_not_padding, six1_reads, six2_reads, six3_reads, six4_reads.
      repeat apply values_cons;
        auto using reads_as_value, six1_reads, six2_reads, six3_reads, six4_reads.
    + cbn [Base64.decode_values map]. rewrite Hdec. cbn [option_map].
      now rewrite byte1_back, six2_low, six3_high, nibbles_back, byte3_back.
Qed.

(** Decoding what line 53 produces gives back the bytes of the message,
    whatever the message. *)
Lemma encodeEmail_roundtrip (email : string) :
  Base64.base64url_decode (Base64.encodeEmail email) = Some (Base64.Buffer_from email).
Proof.
  destruct (url_form_decodes (list_ascii_of_string email)) as (vs & Hvs & Hdec).
  unfold Base64.base64url_decode, Base64.encodeEmail, Base64.toString_base64,
    Base64.Buffer_from.
  fold (url_form (Base64.encode_bytes (map N_of_ascii (list_ascii_of_string email)))).
  now rewrite Hvs.
Qed.

End RoundTrip.

Example encodeEmail_substitutes :
  Base64.toString_base64 ">>>???" = "Pj4+Pz8/"
  /\ Base64.encodeEmail ">>>???" = "Pj4-Pz8_"
  /\ Base64.toString_base64 "a~?>" = "YX4/Pg=="
  /\ Base64.encodeEmail "a~?>" = "YX4_Pg"
  /\ Base64.base64url_decode "YX4_Pg" = Some (Base64.Buffer_from "a~?>").
Proof. repeat split; reflexivity. Qed.

(** C4: for body ["hello\n"], recipient ["a@b.com"] and subject ["Hi"] the
    tool composes the four header lines, a blank line and the body; what it
    sends as [raw] is the standard base64 of the message bytes with [+]
    turned into [-], [/] into [_] and the trailing [=] removed; that text has
    no [+], no [/] and no trailing [=]; and decoding it as base64url gives
    back the bytes of the composed message. *)
Theorem sample_email_encoding :
  let email := Google.compose_email sample_email in
  let encoded := Base64.encodeEmail email in
  email = "Content-Type: text/plain; charset=" ++ dquote ++ "UTF-8" ++ dquote ++ LF
          ++ "MIME-Version: 1.0" ++ LF
          ++ "To: a@b.com" ++ LF
          ++ "Subject: Hi" ++ LF
          ++ LF
          ++ "hello" ++ LF
  /\ Base64.toString_base64 email
     = "Q29udGVudC1UeXBlOiB0ZXh0L3BsYWluOyBjaGFyc2V0PSJVVEYtOCIKTUlNRS1WZXJzaW9uOiAxLjAKVG86IGFAYi5jb20KU3ViamVjdDogSGkKCmhlbGxvCg=="
  /\ encoded
     = Base64.strip_padding
         (Base64.replace_all "/" "_"
            (Base64.replace_all "+" "-" (Base64.toString_base64 email)))
  /\ encoded
     = "Q29udGVudC1UeXBlOiB0ZXh0L3BsYWluOyBjaGFyc2V0PSJVVEYtOCIKTUlNRS1WZXJzaW9uOiAxLjAKVG86IGFAYi5jb20KU3ViamVjdDogSGkKCmhlbGxvCg"
  /\ Base64.occurs "+" encoded = false
  /\ Base64.occurs "/" encoded = false
  /\ Base64.last_char encoded <> Some "="%char
  /\ Base64.base64url_decode encoded = Some (Base64.Buffer_from email)
  /\ forall tokens,
      Fetch.body (snd (request_of (SendEmail sample_email) tokens))
      = Some ("{" ++ dquote ++ "raw" ++ dquote ++ ":" ++ dquote ++ encoded ++ dquote ++ "}").
Proof.
  intros email encoded.
  split; [reflexivity|]. split; [vm_compute; reflexivity|].
  split; [reflexivity|]. split; [vm_compute; reflexivity|].
  split; [apply encodeEmail_url_safe|]. split; [apply encodeEmail_url_safe|].
  split; [apply encodeEmail_url_safe|].
  split; [vm_compute; reflexivity|].
  intros tokens. vm_compute. reflexivity.
Qed.

(** ** The gist request *)

Lemma string_app_assoc (s1 s2 s3 : string) : (s1 ++ s2) ++ s3 = s1 ++ (s2 ++ s3).
Proof. induction s1 as [|c s1 IH]; simpl; [reflexivity | now rewrite IH]. Qed.

(** C5: create-gist with filename ["a.txt"], content ["x"], public [false]
    and any description, for a caller with a credential, sends one request
    whose JSON body has [files] with the single key ["a.txt"] mapped to
    [{content:"x"}], [public] false, and the given description. *)
Theorem createGist_request_body description agentInfo app net w tokens :
  JSMap.get (tokenStore w) (id agentInfo) = Some tokens ->
  let input := {| GistCreator.description := description;
                  GistCreator.isPublic := false;
                  GistCreator.filename := "a.txt";
                  GistCreator.content := "x" |} in
  let payload :=
    JObj [ ("description", JStr description);
           ("public", JBool false);
           ("files", JObj [ ("a.txt", JObj [("content", JStr "x")]) ]) ] in
  exists init,
    trace (snd (handler_of (CreateGist input) agentInfo app net w))
    = (trace w ++ [CallFetch "https://api.github.com/gists" init])%list
    /\ Fetch.method init = Some "POST"
    /\ Fetch.header (Fetch.headers init) "Content-Type" = Some "application/json"
    /\ Fetch.body init = JS.JSON_stringify payload
    /\ Fetch.body init
       = Some ("{" ++ dquote ++ "description" ++ dquote ++ ":" ++ JS.quote description
               ++ "," ++ dquote ++ "public" ++ dquote ++ ":false"
               ++ "," ++ dquote ++ "files" ++ dquote ++ ":{"
               ++ dquote ++ "a.txt" ++ dquote ++ ":{"
               ++ dquote ++ "content" ++ dquote ++ ":" ++ dquote ++ "x" ++ dquote
               ++ "}}}").
Proof.
  intros Hget input payload.
  rewrite (handler_present_world (CreateGist input) agentInfo app net w tokens Hget).
  eexists. split; [reflexivity|]. repeat split.
  cbn. unfold JS.quote. cbn. rewrite !string_app_assoc. reflexivity.
Qed.

Lemma createGist_request_body_witness :
  exists init,
    trace (snd (handler_of
                  (CreateGist {| GistCreator.description := "notes";
                                 GistCreator.isPublic := false;
                                 GistCreator.filename := "a.txt";
                                 GistCreator.content := "x" |})
                  {| id := "agent-1" |} {| oauth2 := None |} offline authenticated))
    = [CallFetch "https://api.github.com/gists" init]
    /\ Fetch.body init
       = Some ("{" ++ dquote ++ "description" ++ dquote ++ ":" ++ dquote ++ "notes" ++ dquote
               ++ "," ++ dquote ++ "public" ++ dquote ++ ":false"
               ++ "," ++ dquote ++ "files" ++ dquote ++ ":{"
               ++ dquote ++ "a.txt" ++ dquote ++ ":{"
               ++ dquote ++ "content" ++ dquote ++ ":" ++ dquote ++ "x" ++ dquote
               ++ "}}}").
Proof.
  destruct (createGist_request_body "notes" {| id := "agent-1" |} {| oauth2 := None |}
              offline authenticated sample_tokens eq_refl)
    as (init & Htrace & _ & _ & _ & Hbody).
  exists init. split; [exact Htrace | exact Hbody].
Defined.

(** ** The profile *)

(** Whatever the reply holds under the five names is copied as it is,
    provided the five convert to text. *)
Lemma getUserProfile_copies_fields agentInfo app net w tokens resp profile :
  JSMap.get (tokenStore w) (id agentInfo) = Some tokens ->
  net GistCreator.user_url (GistCreator.profile_request tokens) = Fulfilled resp ->
  Fetch.json resp = Fulfilled profile ->
  nullish profile = false ->
  converts GetProfile profile = true ->
  exists r,
    fst (GistCreator.getUserProfile_handler agentInfo app net w) = Fulfilled r
    /\ data r = JObj [ ("login", read profile "login"); ("name", read profile "name");
                       ("email", read profile "email"); ("bio", read profile "bio");
                       ("public_repos", read profile "public_repos") ].
Proof.
  intros Hget Hnet Hjson Hv Hc.
  unfold converts in Hc. simpl in Hc.
  repeat (apply andb_true_iff in Hc as [?H Hc]).
  unfold GistCreator.getUserProfile_handler. run_async.
  rewrite Hget. simpl. rewrite Hnet, Hjson.
  repeat rewrite (get_read profile) by exact Hv.
  unfold JS.ToString. simpl.
  repeat match goal with
         | H : negb (JS.throws ?x) = true |- _ =>
             apply negb_true_iff in H; rewrite H; clear H
         end.
  simpl. eexists. repeat split.
Qed.

(** C6: for the reply [{login:"bob", name:"Bob", email:"b@x.com", bio:"hi",
    public_repos:3}] get-profile, invoked for a caller with a credential,
    returns a result whose data payload has exactly these five fields with
    the same values. *)
Theorem getUserProfile_maps_bob agentInfo app net w tokens status :
  JSMap.get (tokenStore w) (id agentInfo) = Some tokens ->
  net GistCreator.user_url (GistCreator.profile_request tokens)
  = Fulfilled {| Fetch.status := status; Fetch.json := Fulfilled bob |} ->
  exists r,
    fst (handler_of GetProfile agentInfo app net w) = Fulfilled r
    /\ data r = JObj [ ("login", JStr "bob"); ("name", JStr "Bob");
                       ("email", JStr "b@x.com"); ("bio", JStr "hi");
                       ("public_repos", JNum 3) ]
    /\ data r = bob.
Proof.
  intros Hget Hnet.
  destruct (getUserProfile_copies_fields agentInfo app net w tokens _ bob
              Hget Hnet eq_refl eq_refl eq_refl) as (r & Hr & Hdata).
  exists r. split; [exact Hr|]. split; exact Hdata.
Qed.

Lemma getUserProfile_maps_bob_witness :
  exists r,
    fst (handler_of GetProfile {| id := "agent-1" |} {| oauth2 := None |}
           github_bob authenticated) = Fulfilled r
    /\ data r = bob.
Proof.
  destruct (getUserProfile_maps_bob {| id := "agent-1" |} {| oauth2 := None |}
              github_bob authenticated sample_tokens 200%Z eq_refl eq_refl)
    as (r & Hr & _ & Hdata).
  exists r. split; [exact Hr | exact Hdata].
Defined.

(** ** The token store over the life of a service *)

Lemma onSuccess_world s agentId tokens net w :
  snd (Service.onSuccess s agentId tokens net w) =
    {| tokenStore := JSMap.set (tokenStore w) agentId tokens;
       trace :=
         ((trace w
             ++ [ConsoleLog [LogString "Completed OAuth flow for agent";
                             LogString agentId; LogTokens tokens]])
            ++ [ConsoleLog [LogString ("Stored tokens for agent " ++ agentId)]])%list |}.
Proof. destruct s; reflexivity. Qed.

Lemma serve_store s net w r :
  tokenStore (Service.serve s net w r) =
    match r with
    | Completion agentId tokens => JSMap.set (tokenStore w) agentId tokens
    | Invocation _ _ _ => tokenStore w
    end.
Proof.
  destruct r as [agentId tokens | c agentInfo app]; simpl.
  - now rewrite onSuccess_world.
  - destruct (Service.hosts s c); [apply handler_keeps_store | reflexivity].
Qed.

(** No key ever has two entries. *)
Lemma run_from_single_entry s rs w :
  (forall k, (JSMap.count (tokenStore w) k <= 1)%nat) ->
  forall k,
    (JSMap.count
       (tokenStore (fold_left (fun w nr => Service.serve s (fst nr) w (snd nr)) rs w)) k
     <= 1)%nat.
Proof.
  revert w. induction rs as [|[net r] rs IH]; intros w Hw; [exact Hw|].
  simpl. apply IH. intros k. rewrite serve_store.
  destruct r; [apply JSMap_count_set_le|]; apply Hw.
Qed.

Lemma run_single_entry s rs k :
  (JSMap.count (tokenStore (Service.run s rs)) k <= 1)%nat.
Proof.
  unfold Service.run. apply run_from_single_entry.
  intros k'. unfold JSMap.count. simpl. lia.
Qed.

(** C7: in every state a service reaches the token store holds at most one
    entry per caller identity, and after two completion callbacks for the
    same identity the store holds, and returns, the second credential
    only. *)
Theorem tokenStore_last_write_wins s rs net1 net2 agentId t1 t2 :
  let w := Service.run s rs in
  let w1 := Service.serve s net1 w (Completion agentId t1) in
  let w2 := Service.serve s net2 w1 (Completion agentId t2) in
  (forall k, (JSMap.count (tokenStore w) k <= 1)%nat)
  /\ JSMap.get (tokenStore w2) agentId = Some t2
  /\ filter (fun e => String.eqb (fst e) agentId) (tokenStore w2) = [(agentId, t2)]
  /\ (forall k, (JSMap.count (tokenStore w2) k <= 1)%nat).
Proof.
  intros w w1 w2.
  assert (Hw : forall k, (JSMap.count (tokenStore w) k <= 1)%nat)
    by (intros k; apply run_single_entry).
  assert (Hw1 : forall k, (JSMap.count (tokenStore w1) k <= 1)%nat).
  { intros k. subst w1. rewrite serve_store. apply JSMap_count_set_le, Hw. }
  split; [exact Hw|].
  subst w2. rewrite serve_store.
  split; [apply JSMap_get_set_same|].
  split; [apply JSMap_entries_set, Hw1|].
  intros k. apply JSMap_count_set_le, Hw1.
Qed.

(** ** The two branches exclude each other *)

(** C8: a result a tool returns is either the authenticate result (null
    data, [oauth2] card), exactly when the caller has no credential, or the
    action result (data that is not null, [card]), exactly when the caller
    has one; it is never both. *)
Theorem branches_exclusive c agentInfo app net w r :
  fst (handler_of c agentInfo app net w) = Fulfilled r ->
  (needs_authentication r /\ ~ action_succeeded r
   /\ JSMap.get (tokenStore w) (id agentInfo) = None)
  \/ (action_succeeded r /\ ~ needs_authentication r
      /\ exists tokens, JSMap.get (tokenStore w) (id agentInfo) = Some tokens).
Proof.
  intros Hr.
  destruct (JSMap.get (tokenStore w) (id agentInfo)) as [tokens|] eqn:Hget.
  - right.
    pose proof (handler_present_outcome c agentInfo app net w tokens Hget) as H.
    assert (Hcard : type (ui r) = "card" /\ exists fs, data r = JObj fs).
    { destruct (net _ _) as [resp|e]; [|congruence].
      destruct (Fetch.json resp) as [v|e]; [|congruence].
      destruct (nullish v).
      - destruct H as [e He]. congruence.
      - destruct (converts c v).
        + destruct H as (r' & Hr' & Ht & Hd).
          assert (r' = r) by congruence. subst r'. eauto.
        + destruct H as [e He]. congruence. }
    destruct Hcard as (Ht & fs & Hd).
    split; [split; [rewrite Hd; discriminate | exact Ht]|].
    split; [|eauto].
    intros [Hnull _]. rewrite Hd in Hnull. discriminate Hnull.
  - left.
    rewrite (handler_absent c agentInfo app net w Hget) in Hr.
    assert (Hshape : exists u, r = authenticate_result_of c u).
    { destruct (oauth2 app) as [h|]; simpl in Hr.
      - destruct (generateAuthUrl h _ _); [|discriminate Hr].
        injection Hr as Hr. eauto.
      - injection Hr as Hr. eauto. }
    destruct Hshape as [u ->].
    assert (Hn : needs_authentication (authenticate_result_of c u))
      by (destruct c; split; reflexivity).
    split; [exact Hn|]. split; [|reflexivity].
    intros [Hdata _]. destruct Hn as [Hnull _]. contradiction.
Qed.

Lemma branches_exclusive_witness :
  exists r,
    fst (handler_of GetProfile {| id := "agent-1" |} {| oauth2 := None |}
           github_bob authenticated) = Fulfilled r
    /\ action_succeeded r /\ ~ needs_authentication r.
Proof.
  eexists. split; [reflexivity|].
  destruct (branches_exclusive GetProfile {| id := "agent-1" |} {| oauth2 := None |}
              github_bob authenticated _ eq_refl) as [(_ & _ & Habs) | (Ha & Hn & _)].
  - discriminate Habs.
  - split; [exact Ha | exact Hn].
Defined.

(** ** The frame of a tool *)

(** C9: no invocation of a tool changes the token store, whichever branch
    it takes and however it settles; of the requests a service serves only
    the completion callback writes to the store. *)
Theorem tools_never_write c agentInfo app net w :
  tokenStore (snd (handler_of c agentInfo app net w)) = tokenStore w
  /\ (forall s agentId tokens,
        tokenStore (snd (Service.onSuccess s agentId tokens net w))
        = JSMap.set (tokenStore w) agentId tokens)
  /\ (forall s r,
        tokenStore (Service.serve s net w r)
        = match r with
          | Completion agentId tokens => JSMap.set (tokenStore w) agentId tokens
          | Invocation _ _ _ => tokenStore w
          end).
Proof.
  split; [apply handler_keeps_store|]. split.
  - intros s agentId tokens. now rewrite onSuccess_world.
  - intros s r. apply serve_store.
Qed.

(** ** The default of [public] *)

(** C10: when the raw input of create-gist has no [public], the declared
    schema parses it to an input whose [public] is [true], and the request
    the handler sends on that input, for a caller with a credential, carries
    [public: true]. *)
Theorem createGist_public_defaults_true props d f c agentInfo app net w tokens :
  JS.lookup "public" props = None ->
  JS.lookup "description" props = Some (JStr d) ->
  JS.lookup "filename" props = Some (JStr f) ->
  JS.lookup "content" props = Some (JStr c) ->
  JSMap.get (tokenStore w) (id agentInfo) = Some tokens ->
  exists input,
    GistCreator.createGist_input (JObj props) = Some input
    /\ input = {| GistCreator.description := d; GistCreator.isPublic := true;
                  GistCreator.filename := f; GistCreator.content := c |}
    /\ exists init,
        trace (snd (handler_of (CreateGist input) agentInfo app net w))
        = (trace w ++ [CallFetch GistCreator.gists_url init])%list
        /\ Fetch.body init
           = JS.JSON_stringify
               (JObj [ ("description", JStr d);
                       ("public", JBool true);
                       ("files", JObj [ (f, JObj [("content", JStr c)]) ]) ]).
Proof.
  intros Hp Hd Hf Hc Hget.
  eexists. split.
  - unfold GistCreator.createGist_input, Zod.key, Zod.shape_field.
    rewrite Hp, Hd, Hf, Hc. reflexivity.
  - split; [reflexivity|].
    rewrite (handler_present_world _ agentInfo app net w tokens Hget).
    eexists. split; reflexivity.
Qed.

Lemma createGist_public_defaults_true_witness :
  exists input,
    GistCreator.createGist_input
      (JObj [ ("description", JStr "notes"); ("filename", JStr "a.txt");
              ("content", JStr "x") ]) = Some input
    /\ GistCreator.isPublic input = true
    /\ exists init,
        trace (snd (handler_of (CreateGist input) {| id := "agent-1" |}
                      {| oauth2 := None |} offline authenticated))
        = [CallFetch GistCreator.gists_url init]
        /\ Fetch.body init
           = Some ("{" ++ dquote ++ "description" ++ dquote ++ ":" ++ dquote ++ "notes" ++ dquote
                   ++ "," ++ dquote ++ "public" ++ dquote ++ ":true"
                   ++ "," ++ dquote ++ "files" ++ dquote ++ ":{"
                   ++ dquote ++ "a.txt" ++ dquote ++ ":{"
                   ++ dquote ++ "content" ++ dquote ++ ":" ++ dquote ++ "x" ++ dquote
                   ++ "}}}").
Proof.
  destruct (createGist_public_defaults_true
              [ ("description", JStr "notes"); ("filename", JStr "a.txt");
                ("content", JStr "x") ]
              "notes" "a.txt" "x" {| id := "agent-1" |} {| oauth2 := None |}
              offline authenticated sample_tokens
              eq_refl eq_refl eq_refl eq_refl eq_refl)
    as (input & Hparse & Hinput & init & Htrace & Hbody).
  exists input. split; [exact Hparse|]. split; [now rewrite Hinput|].
  exists init. split; [exact Htrace | exact Hbody].
Defined.

(** An explicit [public] is kept, and a value that is not a boolean is
    refused. *)
Example createGist_input_public :
  GistCreator.createGist_input
    (JObj [ ("description", JStr "d"); ("public", JBool false);
            ("filename", JStr "f"); ("content", JStr "c") ])
  = Some {| GistCreator.description := "d"; GistCreator.isPublic := false;
            GistCreator.filename := "f"; GistCreator.content := "c" |}
  /\ GistCreator.createGist_input
       (JObj [ ("description", JStr "d"); ("public", JStr "yes");
               ("filename", JStr "f"); ("content", JStr "c") ])
     = None.
Proof. split; reflexivity. Qed.

(** * Further properties of the code *)

(** ** Callers are kept apart *)

Lemma JSMap_get_set {V : Type} (m : JSMap.t V) k v k' :
  JSMap.get (JSMap.set m k v) k' = if String.eqb k k' then Some v else JSMap.get m k'.
Proof.
  destruct (String.eqb k k') eqn:E.
  - apply String.eqb_eq in E. subst k'. apply JSMap_get_set_same.
  - apply JSMap_get_set_other. intros ->. now rewrite String.eqb_refl in E.
Qed.

(** X1: the completion callback for one caller leaves the credential of
    every other caller as it was, present or absent. *)
Theorem completion_keeps_other_callers s agentId tokens net w other :
  other <> agentId ->
  JSMap.get (tokenStore (snd (Service.onSuccess s agentId tokens net w))) other
  = JSMap.get (tokenStore w) other.
Proof.
  intros Hne. rewrite onSuccess_world. simpl. now apply JSMap_get_set_other.
Qed.

Lemma completion_keeps_other_callers_witness :
  JSMap.get
    (tokenStore (snd (Service.onSuccess Service.github "agent-2"
                        {| accessToken := "tok-456"; refreshToken := None;
                           expiresAt := None |} offline authenticated)))
    "agent-1"
  = Some sample_tokens.
Proof.
  apply (completion_keeps_other_callers Service.github "agent-2"
           {| accessToken := "tok-456"; refreshToken := None; expiresAt := None |}
           offline authenticated "agent-1").
  discriminate.
Defined.

(** ** The store after any sequence of requests *)

Lemma serve_all_get s rs w k :
  JSMap.get (tokenStore (serve_all s rs w)) k
  = last_completion k rs (JSMap.get (tokenStore w) k).
Proof.
  unfold serve_all, last_completion.
  revert w. induction rs as [|[net r] rs IH]; intros w; [reflexivity|].
  simpl. rewrite IH. f_equal. rewrite serve_store.
  destruct r as [k' tokens|]; [apply JSMap_get_set | reflexivity].
Qed.

Lemma credential_is_last_completion_aux s rs k :
  JSMap.get (tokenStore (Service.run s rs)) k = last_completion k rs None.
Proof. exact (serve_all_get s rs Service.init k). Qed.

(** X2: after any sequence of requests, the credential the store returns for
    a caller is the one of the last completion callback for this caller, and
    none when there was no such callback. *)
Theorem credential_is_last_completion s rs k :
  JSMap.get (tokenStore (Service.run s rs)) k = last_completion k rs None.
Proof.
  exact (serve_all_get s rs Service.init k).
Qed.

Lemma last_completion_some k rs start :
  start <> None -> last_completion k rs start <> None.
Proof.
  unfold last_completion. revert start.
  induction rs as [|[net r] rs IH]; intros start Hs; [exact Hs|].
  simpl. apply IH. destruct r as [k' tokens|]; [|exact Hs].
  destruct (String.eqb k' k); [discriminate | exact Hs].
Qed.

(** X3: no request removes a credential: a caller who has one keeps having
    one, whatever requests the service serves afterwards. *)
Theorem credential_never_removed s rs w k :
  JSMap.get (tokenStore w) k <> None ->
  JSMap.get (tokenStore (serve_all s rs w)) k <> None.
Proof.
  intros H. rewrite serve_all_get. now apply last_completion_some.
Qed.

Lemma credential_never_removed_witness :
  JSMap.get
    (tokenStore
       (serve_all Service.github
          [ (unauthorized, Invocation GetProfile {| id := "agent-1" |} {| oauth2 := None |});
            (offline, Completion "agent-2" sample_tokens);
            (offline, Invocation GetProfile {| id := "agent-3" |} {| oauth2 := None |}) ]
          authenticated))
    "agent-1"
  <> None.
Proof.
  apply (credential_never_removed Service.github _ authenticated "agent-1").
  discriminate.
Defined.

(** ** The calls of an invocation *)

Lemma handler_trace c agentInfo app net w :
  trace (snd (handler_of c agentInfo app net w)) =
    match JSMap.get (tokenStore w) (id agentInfo) with
    | Some tokens =>
        (trace w ++ [CallFetch (fst (request_of c tokens)) (snd (request_of c tokens))])%list
    | None =>
        match oauth2 app with
        | Some _ =>
            (trace w ++ [CallGenerateAuthUrl (provider_of c) (id agentInfo)])%list
        | None => trace w
        end
    end.
Proof.
  destruct (JSMap.get (tokenStore w) (id agentInfo)) as [tokens|] eqn:Hget.
  - now rewrite (handler_present_world c agentInfo app net w tokens Hget).
  - rewrite (handler_absent c agentInfo app net w Hget).
    now destruct (oauth2 app).
Qed.

(** X4: the calls an invocation makes depend on the store and on [app]
    only, not on how they settle: one [fetch] when the caller has a
    credential; otherwise one request to the delegate when there is one, and
    nothing at all when there is none.  An invocation never does both, and
    never writes to the console. *)
Theorem invocation_calls c agentInfo app net w :
  trace (snd (handler_of c agentInfo app net w)) =
    match JSMap.get (tokenStore w) (id agentInfo) with
    | Some tokens =>
        (trace w ++ [CallFetch (fst (request_of c tokens)) (snd (request_of c tokens))])%list
    | None =>
        match oauth2 app with
        | Some _ =>
            (trace w ++ [CallGenerateAuthUrl (provider_of c) (id agentInfo)])%list
        | None => trace w
        end
    end.
Proof. apply handler_trace. Qed.

(** ** Credentials in the console *)

Lemma JSMap_set_In {V : Type} (m : JSMap.t V) k v k' v' :
  In (k', v') (JSMap.set m k v) -> (k', v') = (k, v) \/ In (k', v') m.
Proof.
  induction m as [|[k0 v0] m IH]; simpl.
  - intros [H|[]]. left. now symmetry.
  - destruct (String.eqb k0 k) eqn:E; simpl.
    + apply String.eqb_eq in E. subst k0.
      intros [H|H]; [left; now symmetry | right; now right].
    + intros [H|H]; [right; now left|].
      destruct (IH H) as [H'|H']; [now left | right; now right].
Qed.

Lemma serve_trace_grows s net w r :
  exists evs, trace (Service.serve s net w r) = (trace w ++ evs)%list.
Proof.
  destruct r as [k tokens | c agentInfo app]; simpl.
  - rewrite onSuccess_world. simpl. rewrite <- app_assoc. eauto.
  - destruct (Service.hosts s c); [|exists []; now rewrite app_nil_r].
    rewrite handler_trace.
    destruct (JSMap.get _ _); [eauto|].
    destruct (oauth2 app); [eauto | exists []; now rewrite app_nil_r].
Qed.

Lemma serve_all_logged s rs w :
  (forall k tokens, In (k, tokens) (tokenStore w) -> In (completion_log k tokens) (trace w)) ->
  forall k tokens,
    In (k, tokens) (tokenStore (serve_all s rs w)) ->
    In (completion_log k tokens) (trace (serve_all s rs w)).
Proof.
  unfold serve_all. revert w.
  induction rs as [|[net r] rs IH]; intros w Hw; [exact Hw|].
  simpl. apply IH. intros k tokens Hin.
  destruct (serve_trace_grows s net w r) as [evs Hevs].
  rewrite serve_store in Hin.
  destruct r as [k' tokens' | c agentInfo app].
  - apply JSMap_set_In in Hin. destruct Hin as [Heq | Hin].
    + injection Heq as -> ->. simpl. rewrite onSuccess_world. simpl.
      apply in_or_app. left. apply in_or_app. right. now left.
    + rewrite Hevs. apply in_or_app. left. now apply Hw.
  - rewrite Hevs. apply in_or_app. left. now apply Hw.
Qed.

(** X5: every credential in the store of a running service has been written
    to the console, access token included, by the callback that stored it. *)
Theorem stored_credentials_were_logged s rs k tokens :
  In (k, tokens) (tokenStore (Service.run s rs)) ->
  In (completion_log k tokens) (trace (Service.run s rs)).
Proof.
  apply (serve_all_logged s rs Service.init). intros k' t' [].
Qed.

Lemma stored_credentials_were_logged_witness :
  In (completion_log "agent-1" sample_tokens)
     (trace (Service.run Service.google [(offline, Completion "agent-1" sample_tokens)])).
Proof.
  apply (stored_credentials_were_logged Service.google
           [(offline, Completion "agent-1" sample_tokens)] "agent-1" sample_tokens).
  simpl. left. reflexivity.
Defined.

(** ** Whose token is sent *)

(** X6: in any state a service reaches, an invocation of one of its tools
    for a caller sends the access token of the last completion callback for
    that caller, and sends nothing when there was none; the token of another
    caller is never used. *)
Theorem bearer_is_the_callers_own s rs c agentInfo app net :
  Service.hosts s c = true ->
  let w := Service.run s rs in
  let w' := Service.serve s net w (Invocation c agentInfo app) in
  match last_completion (id agentInfo) rs None with
  | Some tokens =>
      exists url init,
        trace w' = (trace w ++ [CallFetch url init])%list
        /\ Fetch.header (Fetch.headers init) "Authorization"
           = Some ("Bearer " ++ accessToken tokens)
  | None => fetch_calls (trace w') = fetch_calls (trace w)
  end.
Proof.
  intros Hhosts w w'. subst w'. simpl. rewrite Hhosts. rewrite handler_trace.
  subst w. rewrite credential_is_last_completion_aux.
  destruct (last_completion (id agentInfo) rs None) as [tokens|].
  - do 2 eexists. split; [reflexivity|]. destruct c; reflexivity.
  - destruct (oauth2 app); [|reflexivity].
    rewrite fetch_calls_app. simpl. now rewrite app_nil_r.
Qed.

Lemma bearer_is_the_callers_own_witness :
  let rs := [ (offline, Completion "agent-1" sample_tokens);
              (offline, Completion "agent-2"
                 {| accessToken := "tok-456"; refreshToken := None; expiresAt := None |}) ] in
  let w := Service.run Service.github rs in
  exists url init,
    trace (Service.serve Service.github github_bob w
             (Invocation GetProfile {| id := "agent-1" |} {| oauth2 := None |}))
    = (trace w ++ [CallFetch url init])%list
    /\ Fetch.header (Fetch.headers init) "Authorization" = Some "Bearer tok-123".
Proof.
  exact (bearer_is_the_callers_own Service.github
           [ (offline, Completion "agent-1" sample_tokens);
             (offline, Completion "agent-2"
                {| accessToken := "tok-456"; refreshToken := None; expiresAt := None |}) ]
           GetProfile {| id := "agent-1" |} {| oauth2 := None |} github_bob eq_refl).
Defined.

(** ** The [raw] field for every message *)

(** X7: whatever the recipient, subject and body, the [raw] field of the
    request send-gmail issues is the JSON string of a text that base64url
    decoding turns back into the bytes of the composed message. *)
Theorem raw_decodes_to_message input tokens :
  let encoded := Base64.encodeEmail (Google.compose_email input) in
  Fetch.body (snd (request_of (SendEmail input) tokens))
  = JS.JSON_stringify (JObj [("raw", JStr encoded)])
  /\ Base64.base64url_decode encoded
     = Some (Base64.Buffer_from (Google.compose_email input)).
Proof.
  split; [reflexivity | apply encodeEmail_roundtrip].
Qed.

(** X8: the encoding loses no byte: two messages with the same encoded text
    have the same bytes, those [Buffer.from] gives for them. *)
Theorem encodeEmail_injective email1 email2 :
  Base64.encodeEmail email1 = Base64.encodeEmail email2 ->
  Base64.Buffer_from email1 = Base64.Buffer_from email2.
Proof.
  intros H.
  pose proof (encodeEmail_roundtrip email1) as H1.
  pose proof (encodeEmail_roundtrip email2) as H2.
  rewrite H in H1. rewrite H1 in H2. now injection H2.
Qed.

Lemma encodeEmail_injective_witness :
  Base64.Buffer_from "hello" = Base64.Buffer_from "hello".
Proof. exact (encodeEmail_injective "hello" "hello" eq_refl). Defined.

Lemma values_url_safe s vs : Base64.values s = Some vs -> url_safe s = true.
Proof.
  revert vs. induction s as [|c s IH]; intros vs; [reflexivity|].
  cbn [Base64.values url_safe].
  destruct (Base64.url_value c); [|discriminate].
  destruct (Base64.values s) as [vs'|]; [|discriminate].
  intros _. now apply (IH vs').
Qed.

(** X9: the encoded text of every message is made of the 64 characters of
    the URL-safe alphabet ([A-Z], [a-z], [0-9], [-], [_]) and nothing else. *)
Theorem encodeEmail_alphabet email : url_safe (Base64.encodeEmail email) = true.
Proof.
  destruct (url_form_decodes (list_ascii_of_string email)) as (vs & Hvs & _).
  exact (values_url_safe _ vs Hvs).
Qed.

Lemma length_list_ascii_of_string s :
  length (list_ascii_of_string s) = String.length s.
Proof. induction s as [|c s IH]; simpl; [reflexivity | now rewrite IH]. Qed.

Lemma url_form_length (cs : list ascii) :
  String.length (url_form (Base64.encode_bytes (map N_of_ascii cs)))
  = ((4 * length cs + 2) / 3)%nat.
Proof.
  induction cs as [|a|a b|a b c rest IH] using list_ind3.
  - reflexivity.
  - change (Base64.encode_bytes (map N_of_ascii [a]))
      with (String (Base64.digit (six1 (N_of_ascii a)))
              (String (Base64.digit (six2_last (N_of_ascii a))) "==")).
    rewrite !url_form_cons
      by auto using reads_as_not_padding, six1_reads, six2_last_reads.
    reflexivity.
  - change (Base64.encode_bytes (map N_of_ascii [a; b]))
      with (String (Base64.digit (six1 (N_of_ascii a)))
              (String (Base64.digit (six2 (N_of_ascii a) (N_of_ascii b)))
                 (String (Base64.digit (six3_last (N_of_ascii b))) "="))).
    rewrite !url_form_cons
      by auto using reads_as_not_padding, six1_reads, six2_reads, six3_last_reads.
    reflexivity.
  - cbn [map]. rewrite encode_bytes_group.
    rewrite !url_form_cons
      by auto using reads_as_not_padding, six1_reads, six2_reads, six3_reads, six4_reads.
    cbn [String.length length]. rewrite IH.
    replace (4 * S (S (S (length rest))) + 2)%nat
      with ((4 * length rest + 2) + 4 * 3)%nat by lia.
    rewrite Nat.div_add by discriminate. lia.
Qed.

(** X10: a message of [n] bytes is encoded in [(4n + 2) / 3] characters,
    rounded down: four characters for three bytes, and two or three for the
    one or two bytes left over, with no padding. *)
Theorem encodeEmail_length email :
  String.length (Base64.encodeEmail email)
  = ((4 * String.length email + 2) / 3)%nat.
Proof.
  rewrite <- (length_list_ascii_of_string email).
  exact (url_form_length (list_ascii_of_string email)).
Qed.

(** ** The composed message *)

Lemma string_app_cancel (p x y : string) : p ++ x = p ++ y -> x = y.
Proof.
  induction p as [|c p IH]; simpl; [trivial|].
  intros H. injection H as H. now apply IH.
Qed.

Lemma split_at_line_feed a a' r r' :
  Base64.occurs "010" a = false -> Base64.occurs "010" a' = false ->
  a ++ String "010" r = a' ++ String "010" r' -> a = a' /\ r = r'.
Proof.
  revert a'. induction a as [|c a IH]; intros [|c' a']; simpl.
  - intros _ _ H. injection H as H. now split.
  - intros _ Hc' H. injection H as Hc _. subst c'. discriminate Hc'.
  - intros Hc _ H. injection H as Hc' _. subst c. discriminate Hc.
  - intros Hc Hc' H. injection H as Hcc H. subst c'.
    apply orb_false_iff in Hc as [_ Ha]. apply orb_false_iff in Hc' as [_ Ha'].
    destruct (IH a' Ha Ha' H) as [-> ->]. now split.
Qed.

Lemma compose_email_shape input :
  Google.compose_email input
  = ("Content-Type: text/plain; charset=" ++ dquote ++ "UTF-8" ++ dquote ++ LF
     ++ "MIME-Version: 1.0" ++ LF ++ "To: ")
    ++ Google.to input
    ++ String "010" ("Subject: " ++ Google.subject input
                     ++ String "010" (String "010" (Google.body input))).
Proof.
  unfold Google.compose_email, LF. cbn.
  rewrite !string_app_assoc. reflexivity.
Qed.

(** X11: when neither recipient nor subject holds a line feed, the composed
    message determines the recipient, the subject and the body: two inputs
    that give the same message are the same input. *)
Theorem compose_email_injective input1 input2 :
  one_line (Google.to input1) = true -> one_line (Google.subject input1) = true ->
  one_line (Google.to input2) = true -> one_line (Google.subject input2) = true ->
  Google.compose_email input1 = Google.compose_email input2 ->
  input1 = input2.
Proof.
  unfold one_line. intros Ht1 Hs1 Ht2 Hs2 H.
  apply negb_true_iff in Ht1, Hs1, Ht2, Hs2.
  rewrite !compose_email_shape in H.
  apply string_app_cancel in H.
  apply (split_at_line_feed _ _ _ _ Ht1 Ht2) in H as [Hto H].
  apply (string_app_cancel "Subject: ") in H.
  apply (split_at_line_feed _ _ _ _ Hs1 Hs2) in H as [Hsubject H].
  injection H as Hbody.
  destruct input1, input2; simpl in *. now subst.
Qed.

Lemma compose_email_injective_witness : sample_email = sample_email.
Proof.
  exact (compose_email_injective sample_email sample_email
           eq_refl eq_refl eq_refl eq_refl eq_refl).
Defined.

(** With a line feed in the subject the message no longer tells where the
    subject ends: the handler copies the fields as they are. *)
Example compose_email_collision :
  Google.compose_email
    {| Google.to := "a@b.com"; Google.subject := "Hi" ++ LF ++ LF ++ "first";
       Google.body := "second" |}
  = Google.compose_email
      {| Google.to := "a@b.com"; Google.subject := "Hi";
         Google.body := "first" ++ LF ++ LF ++ "second" |}.
Proof. reflexivity. Qed.

(** ** What the schemas accept *)

(** X12: [createGistConfig.input] accepts exactly the objects whose
    [description], [filename] and [content] are strings and whose [public]
    is a boolean or missing; it parses a missing [public] to [true], keeps a
    given one, ignores every other property, and refuses everything else. *)
Theorem createGist_input_accepts v input :
  GistCreator.createGist_input v = Some input
  <-> exists props, v = JObj props /\ gist_input_of props input.
Proof.
  unfold GistCreator.createGist_input, gist_input_of, Zod.key, Zod.shape_field,
    Zod.z_default, Zod.z_string, Zod.z_boolean.
  split.
  - destruct v as [| | | | | |props]; try discriminate.
    intros H. exists props. split; [reflexivity|].
    destruct (JS.lookup "description" props) as [[| | | |d| |]|]; try discriminate H.
    destruct (JS.lookup "filename" props) as [[| | | |f| |]|];
      try (destruct (JS.lookup "public" props) as [[| | | | | |]|]; discriminate H).
    destruct (JS.lookup "content" props) as [[| | | |c| |]|];
      try (destruct (JS.lookup "public" props) as [[| | | | | |]|]; discriminate H).
    destruct (JS.lookup "public" props) as [[| |b| | | |]|]; try discriminate H;
      injection H as <-; repeat split.
  - intros (props & -> & Hd & Hf & Hc & Hp).
    rewrite Hd, Hf, Hc.
    destruct input as [d p f c]; simpl in *.
    destruct (JS.lookup "public" props) as [[| |b| | | |]|];
      try contradiction; now subst.
Qed.

(** X13: [sendEmailConfig.input] accepts exactly the objects whose [to],
    [subject] and [body] are strings, and hands these three to the handler
    unchanged. *)
Theorem sendEmail_input_accepts v input :
  Google.sendEmail_input v = Some input
  <-> exists props, v = JObj props /\ email_input_of props input.
Proof.
  unfold Google.sendEmail_input, email_input_of, Zod.key, Zod.shape_field, Zod.z_string.
  split.
  - destruct v as [| | | | | |props]; try discriminate.
    intros H. exists props. split; [reflexivity|].
    destruct (JS.lookup "to" props) as [[| | | |t| |]|]; try discriminate H.
    destruct (JS.lookup "subject" props) as [[| | | |s| |]|]; try discriminate H.
    destruct (JS.lookup "body" props) as [[| | | |b| |]|]; try discriminate H.
    injection H as <-. repeat split.
  - intros (props & -> & Ht & Hs & Hb).
    rewrite Ht, Hs, Hb. now destruct input.
Qed.

(** ** Replies the handlers do not expect *)

Lemma plain_converts v : JS.plain v = true -> JS.throws v = false.
Proof. destruct v; simpl; trivial; discriminate. Qed.

(** X14: when the reply to create-gist is an object without [html_url],
    whose [id] is a string, a safe integer, a boolean, [null] or missing, the
    tool still returns a card: its text reads [Created Gist: undefined], the
    data payload holds [html_url] as [undefined], and the card has no
    [buttonUrl], [JSON.stringify] leaving the property out. *)
Theorem createGist_reply_without_url input agentInfo app net w tokens resp props :
  JSMap.get (tokenStore w) (id agentInfo) = Some tokens ->
  net GistCreator.gists_url (GistCreator.gist_request tokens input) = Fulfilled resp ->
  Fetch.json resp = Fulfilled (JObj props) ->
  JS.lookup "html_url" props = None ->
  JS.plain (read (JObj props) "id") = true ->
  exists r,
    fst (GistCreator.createGist_handler input agentInfo app net w) = Fulfilled r
    /\ text r = "Created Gist: undefined"
    /\ data r = JObj [ ("html_url", JUndefined); ("id", read (JObj props) "id") ]
    /\ uiData (ui r)
       = JS.JSON_stringify
           (JObj [ ("title", JStr "GitHub Gist");
                   ("content",
                    JStr ("URL: undefined" ++ LF
                          ++ "ID: " ++ JS.text (read (JObj props) "id")));
                   ("buttonText", JStr "View Gist") ]).
Proof.
  intros Hget Hnet Hjson Hurl Hid.
  apply plain_converts in Hid.
  unfold GistCreator.createGist_handler. run_async.
  rewrite Hget. simpl. rewrite Hnet, Hjson.
  unfold read in *. simpl in *. rewrite Hurl. simpl.
  destruct (JS.lookup "id" props) as [gid|]; simpl;
    unfold JS.ToString; simpl; try rewrite Hid; simpl;
    eexists; repeat split.
Qed.

Lemma createGist_reply_without_url_witness :
  exists r,
    fst (GistCreator.createGist_handler
           {| GistCreator.description := "notes"; GistCreator.isPublic := true;
              GistCreator.filename := "a.txt"; GistCreator.content := "x" |}
           {| id := "agent-1" |} {| oauth2 := None |} gist_without_url authenticated)
    = Fulfilled r
    /\ text r = "Created Gist: undefined"
    /\ uiData (ui r)
       = Some ("{" ++ dquote ++ "title" ++ dquote ++ ":" ++ dquote ++ "GitHub Gist" ++ dquote
               ++ "," ++ dquote ++ "content" ++ dquote ++ ":" ++ dquote
               ++ "URL: undefined\nID: g1" ++ dquote
               ++ "," ++ dquote ++ "buttonText" ++ dquote ++ ":" ++ dquote ++ "View Gist"
               ++ dquote ++ "}").
Proof.
  destruct (createGist_reply_without_url
              {| GistCreator.description := "notes"; GistCreator.isPublic := true;
                 GistCreator.filename := "a.txt"; GistCreator.content := "x" |}
              {| id := "agent-1" |} {| oauth2 := None |} gist_without_url authenticated
              sample_tokens _ [("id", JStr "g1")] eq_refl eq_refl eq_refl eq_refl eq_refl)
    as (r & Hr & Htext & _ & Hui).
  exists r. split; [exact Hr|]. split; [exact Htext | exact Hui].
Defined.

(** X15: no tool looks at the HTTP status of the reply: on two networks
    whose replies differ only in their status an invocation returns the same
    result, or fails with the same error, and leaves the same world. *)
Theorem status_is_ignored c agentInfo app net1 net2 w :
  (forall url init, same_but_status (net1 url init) (net2 url init)) ->
  handler_of c agentInfo app net1 w = handler_of c agentInfo app net2 w.
Proof.
  intros Hsame.
  destruct (JSMap.get (tokenStore w) (id agentInfo)) as [tokens|] eqn:Hget.
  - destruct c; simpl;
      unfold Google.sendEmail_handler, GistCreator.getUserProfile_handler,
        GistCreator.createGist_handler;
      run_async; rewrite Hget; simpl;
      match goal with
      | |- context [net1 ?u ?i] =>
          specialize (Hsame u i);
          destruct (net1 u i) as [r1|e1], (net2 u i) as [r2|e2]
      end;
      simpl in Hsame; try contradiction;
      try (now subst); now rewrite Hsame.
  - now rewrite !(handler_absent c agentInfo app _ w Hget).
Qed.

Lemma status_is_ignored_witness :
  handler_of GetProfile {| id := "agent-1" |} {| oauth2 := None |} github_bob authenticated
  = handler_of GetProfile {| id := "agent-1" |} {| oauth2 := None |}
      (fun _ _ => Fulfilled {| Fetch.status := 500; Fetch.json := Fulfilled bob |})
      authenticated.
Proof.
  apply (status_is_ignored GetProfile {| id := "agent-1" |} {| oauth2 := None |}
           github_bob
           (fun _ _ => Fulfilled {| Fetch.status := 500; Fetch.json := Fulfilled bob |})
           authenticated).
  intros url init. reflexivity.
Defined.

(** ** The start-up message *)

(** X16: the message logged once the node runs is always the text followed
    by the value of [PORT], which prints as [undefined] when the variable is
    not set: the concatenation is never empty, so the [|| 2022] after it is
    never taken and 2022 never appears in the message. *)
Theorem running_message_never_falls_back PORT :
  Startup.running_message PORT
  = JStr ("OAuth Example Service is running on port "
          ++ match PORT with Some p => p | None => "undefined" end).
Proof. destruct PORT; reflexivity. Qed.
